(** * personal_assistant.tools: the two data-fetching tools

    A shallow embedding of [src/personal_assistant/tools.py]
    ([_resolve_location], [fetch_weather_summary], [fetch_safety_brief]) and
    of the Python built-ins those functions rely on, followed by the
    properties of the tools.

    Conventions.
    - A Python [str] is a list of Unicode code points.
    - A decoded JSON document is a [value]; dictionaries are association
      lists read by their first binding.
    - An exception is a constructor of [exn]; a computation that may raise
      returns a [result].
    - Network requests and log records are events of a trace; what the
      network, the XML parser, the ISO-8601 parser and the clock answer is
      read from a [world]. *)

From Stdlib Require Import ZArith NArith List String Ascii Bool Lia Sorted.
From Stdlib Require Import DecimalString.
From Stdlib Require Import Floats.SpecFloat.
From Equations Require Import Equations.
Import ListNotations.

Open Scope Z_scope.

(** ** Python strings *)

Module Str.

Definition char := N.
Definition str := list char.

(** A string literal of the source, as code points. *)
Definition lit (s : string) : str := map N_of_ascii (list_ascii_of_string s).

Definition eqb (a b : str) : bool :=
  if list_eq_dec N.eq_dec a b then true else false.

(** [str.isspace] on one code point (the table of CPython's
    [_PyUnicode_IsWhitespace]). *)
Definition isspace (c : char) : bool :=
  ((9 <=? c) && (c <=? 13) || (28 <=? c) && (c <=? 32)
   || (c =? 133) || (c =? 160) || (c =? 5760)
   || (8192 <=? c) && (c <=? 8202)
   || (c =? 8232) || (c =? 8233) || (c =? 8239) || (c =? 8287)
   || (c =? 12288))%N.

Fixpoint lstrip (s : str) : str :=
  match s with
  | [] => []
  | c :: s' => if isspace c then lstrip s' else s
  end.

Definition rstrip (s : str) : str := rev (lstrip (rev s)).

(** [s.strip()] *)
Definition strip (s : str) : str := rstrip (lstrip s).

(** [s.split()]: the maximal runs of non-whitespace; [cur] is the run being
    read, reversed. *)
Fixpoint split_from (cur : str) (s : str) : list str :=
  match s with
  | [] => match cur with [] => [] | _ => [rev cur] end
  | c :: s' =>
      if isspace c
      then match cur with
           | [] => split_from [] s'
           | _ => rev cur :: split_from [] s'
           end
      else split_from (c :: cur) s'
  end.

Definition split (s : str) : list str := split_from [] s.

(** [sep.join(parts)] *)
Fixpoint join (sep : str) (parts : list str) : str :=
  match parts with
  | [] => []
  | [p] => p
  | p :: rest => p ++ sep ++ join sep rest
  end.

Fixpoint startswith (s pre : str) : bool :=
  match pre, s with
  | [], _ => true
  | p :: pre', c :: s' => (p =? c)%N && startswith s' pre'
  | _ :: _, [] => false
  end.

(** [s.replace(old, new)] for a non-empty [old]: occurrences are replaced
    left to right and do not overlap; [skip] counts the characters of the
    occurrence just replaced that are still to be passed over. *)
Fixpoint replace_from (old new : str) (skip : nat) (s : str) : str :=
  match s with
  | [] => []
  | c :: s' =>
      match skip with
      | S k => replace_from old new k s'
      | O =>
          if startswith s old
          then new ++ replace_from old new (Nat.pred (List.length old)) s'
          else c :: replace_from old new O s'
      end
  end.

(** With an empty [old] Python puts [new] before every character and at the
    end. *)
Definition replace (s old new : str) : str :=
  match old with
  | [] => new ++ flat_map (fun c => c :: new) s
  | _ => replace_from old new O s
  end.

(** [s.split(sep)[-1]] for a one-character [sep]: what follows the last
    separator. *)
Fixpoint after_last (sep : char) (s : str) : str :=
  match s with
  | [] => []
  | c :: s' =>
      if existsb (N.eqb sep) s' then after_last sep s'
      else if (c =? sep)%N then s' else s
  end.

Definition len (s : str) : Z := Z.of_nat (List.length s).

(** [repr(n)] of an integer: its decimal digits, after a minus sign when it
    is negative. *)
Definition repr_int (n : Z) : str := lit (NilZero.string_of_int (Z.to_int n)).

End Str.

Abbreviation str := Str.str.
Abbreviation lit := Str.lit.

(** ** Decoded JSON: the Python values the tools handle *)

#[warnings="-register-all"]
Inductive value : Type :=
| VNone
| VBool (b : bool)
| VInt (z : Z)
| VFloat (f : spec_float)
| VStr (s : str)
| VList (l : list value)
| VDict (d : list (str * value)).

(** ** Exceptions and results *)

Inductive exn : Type :=
| ValueError (msg : str)
| IndexError
| KeyError (key : value)
| TypeError
| AttributeError
| OverflowError
| HTTPError (status : Z)
| RequestException (what : str)
| JSONDecodeError
| ParseError (what : str).

Inductive result (A : Type) : Type :=
| Ok (a : A)
| Raise (e : exn).
Arguments Ok {A} a.
Arguments Raise {A} e.

Definition rbind {A B} (r : result A) (k : A -> result B) : result B :=
  match r with
  | Ok a => k a
  | Raise e => Raise e
  end.

Declare Scope result_scope.
Delimit Scope result_scope with result.
Notation "'let?' x := r 'in' k" := (rbind r (fun x => k))
  (at level 10, x name, r at level 100, k at level 200) : result_scope.
Open Scope result_scope.

Module Py.

Fixpoint assoc (k : str) (d : list (str * value)) : option value :=
  match d with
  | [] => None
  | (k', v) :: d' => if Str.eqb k k' then Some v else assoc k d'
  end.

(** Truth value of an object. *)
Definition truthy (v : value) : bool :=
  match v with
  | VNone => false
  | VBool b => b
  | VInt z => negb (z =? 0)
  | VFloat (S754_zero _) => false
  | VFloat _ => true
  | VStr s => match s with [] => false | _ => true end
  | VList l => match l with [] => false | _ => true end
  | VDict d => match d with [] => false | _ => true end
  end.

(** [a or b] *)
Definition or (a b : value) : value := if truthy a then a else b.

(** [d.get(key, default)]; only a dict has the method. *)
Definition get (d : value) (key : str) (default : value) : result value :=
  match d with
  | VDict kv => Ok (match assoc key kv with Some v => v | None => default end)
  | _ => Raise AttributeError
  end.

(** [key in d] for the containers a JSON document can be. *)
Definition contains (d : value) (key : str) : result bool :=
  match d with
  | VDict kv => Ok (match assoc key kv with Some _ => true | None => false end)
  | VList l => Ok (existsb (fun v => match v with VStr s => Str.eqb s key | _ => false end) l)
  | VStr s =>
      Ok (existsb (fun n => Str.startswith (skipn n s) key)
                  (seq 0 (S (List.length s))))
  | _ => Raise TypeError
  end.

(** Position [i] of a sequence of length [n], counting from the end when
    [i] is negative. *)
Definition index (n : nat) (i : Z) : option nat :=
  if (0 <=? i) && (i <? Z.of_nat n) then Some (Z.to_nat i)
  else if (i <? 0) && (- Z.of_nat n <=? i) then Some (Z.to_nat (Z.of_nat n + i))
  else None.

(** [v[i]] with an integer [i]. *)
Definition getitem (v : value) (i : Z) : result value :=
  match v with
  | VList l =>
      match index (List.length l) i with
      | Some n => match nth_error l n with Some x => Ok x | None => Raise IndexError end
      | None => Raise IndexError
      end
  | VStr s =>
      match index (List.length s) i with
      | Some n => match nth_error s n with Some c => Ok (VStr [c]) | None => Raise IndexError end
      | None => Raise IndexError
      end
  | VDict _ => Raise (KeyError (VInt i))
  | _ => Raise TypeError
  end.

(** [v[key]] with a string [key]. *)
Definition getkey (v : value) (key : str) : result value :=
  match v with
  | VDict kv =>
      match assoc key kv with
      | Some x => Ok x
      | None => Raise (KeyError (VStr key))
      end
  | _ => Raise TypeError
  end.

Fixpoint distinct_keys (d : list (str * value)) : list str :=
  match d with
  | [] => []
  | (k, _) :: d' =>
      let ks := distinct_keys d' in
      if existsb (Str.eqb k) ks then ks else k :: ks
  end.

(** [len(v)] *)
Definition len (v : value) : result Z :=
  match v with
  | VList l => Ok (Z.of_nat (List.length l))
  | VStr s => Ok (Str.len s)
  | VDict d => Ok (Z.of_nat (List.length (distinct_keys d)))
  | _ => Raise TypeError
  end.

(** The elements [for x in v] goes through. *)
Definition iter (v : value) : result (list value) :=
  match v with
  | VList l => Ok l
  | VStr s => Ok (map (fun c => VStr [c]) s)
  | VDict d => Ok (map VStr (rev (distinct_keys (rev d))))
  | _ => Raise TypeError
  end.

(** [range(n)] *)
Definition range (n : Z) : list Z := map Z.of_nat (seq 0 (Z.to_nat n)).

(** [l[:m]] *)
Definition slice_to {A} (l : list A) (m : Z) : list A :=
  if 0 <=? m then firstn (Z.to_nat m) l
  else firstn (Z.to_nat (Z.of_nat (List.length l) + m)) l.

End Py.

(** ** Timestamps

    A [datetime] is what [datetime.fromisoformat] returns: the wall-clock
    reading in microseconds since 0001-01-01T00:00:00 and, for an aware
    value, its offset from UTC in microseconds.  An instant of UTC is a
    number of microseconds since the same origin. *)

Module Dt.

Record datetime : Type := { wall : Z; utcoffset : option Z }.

(** [datetime.min] and [datetime.max] *)
Definition min_us : Z := 0.
Definition max_us : Z := 3652059 * 86400 * 1000000 - 1.

Definition in_range (t : Z) : result Z :=
  if (min_us <=? t) && (t <=? max_us) then Ok t else Raise OverflowError.

(** The two branches on [timestamp.tzinfo]: a naive value is read as UTC
    ([replace(tzinfo=utc)]), an aware one is converted
    ([astimezone(utc)]). *)
Definition to_utc (d : datetime) : result Z :=
  match utcoffset d with
  | None => Ok (wall d)
  | Some off => in_range (wall d - off)
  end.

(** [timedelta(hours=h)] in microseconds. *)
Definition hours (h : Z) : Z := h * 3600 * 1000000.

(** [now + delta] *)
Definition add (now delta : Z) : result Z := in_range (now + delta).

End Dt.

(** ** XML elements, as [xml.etree.ElementTree] exposes them to the tool *)

#[warnings="-register-all"]
Inductive element : Type :=
| Element (tag : str) (text : option str) (children : list element).

Module ET.

Definition tag (e : element) : str := let 'Element t _ _ := e in t.
Definition text (e : element) : option str := let 'Element _ x _ := e in x.
Definition children (e : element) : list element := let 'Element _ _ c := e in c.

(** All elements below [e], in document order, [e] itself excluded. *)
Fixpoint descendants (e : element) : list element :=
  let 'Element _ _ cs := e in
  (fix below (l : list element) : list element :=
     match l with
     | [] => []
     | c :: l' => c :: descendants c ++ below l'
     end) cs.

(** [e.findall(".//" + name)] *)
Definition findall_descendants (e : element) (name : str) : list element :=
  filter (fun c => Str.eqb (tag c) name) (descendants e).

(** [e.findtext(name)]: the text of the first child called [name], the empty
    string when that child has no text, [None] when there is no such child. *)
Definition findtext (e : element) (name : str) : option str :=
  match find (fun c => Str.eqb (tag c) name) (children e) with
  | Some c => Some (match text c with Some s => s | None => [] end)
  | None => None
  end.

End ET.

(** ** The surroundings of a call *)

(** The requests the tools send, by what varies in them; the constant
    parameters, the user agent and the timeout are left out. *)
Inductive request : Type :=
| GeocodeRequest (name : str)
| ForecastRequest (latitude longitude : value) (hourly : bool)
| NewsRequest (q hl gl ceid : str).

Record response : Type := {
  status_code : Z;
  json : result value;
  text : str
}.

Record world : Type := {
  (** [requests.get]: the response, or the exception of the transport. *)
  http_get : request -> result response;
  (** [ET.fromstring] *)
  xml_fromstring : str -> result element;
  (** [datetime.fromisoformat]; [None] when the string is refused. *)
  fromisoformat : str -> option Dt.datetime;
  (** [datetime.now(timezone.utc)] *)
  utcnow : Z;
  (** [TextWrapper.wordsep_re.split] *)
  wordsep_split : str -> list str
}.

Inductive event : Type :=
| Requested (r : request)
| LoggedWarning (fmt : str) (location : str) (exc : exn).

(** A computation with a trace of events that may raise. *)
Definition M (A : Type) : Type := (list event * result A)%type.

Definition ret {A} (a : A) : M A := ([], Ok a).

Definition bind {A B} (m : M A) (k : A -> M B) : M B :=
  match m with
  | (t, Ok a) => let (t', r) := k a in (t ++ t', r)
  | (t, Raise e) => (t, Raise e)
  end.

Definition lift {A} (r : result A) : M A := ([], r).

Definition raise {A} (e : exn) : M A := ([], Raise e).

Declare Scope m_scope.
Delimit Scope m_scope with M.
Notation "x <- m ;; k" := (bind m (fun x => k))
  (at level 61, m at next level, right associativity) : m_scope.
Notation "m ;;; k" := (bind m (fun _ => k))
  (at level 61, right associativity) : m_scope.

(** [requests.get(...)] *)
Definition requests_get (w : world) (r : request) : M response :=
  ([Requested r], http_get w r).

(** [response.raise_for_status()] *)
Definition raise_for_status (r : response) : result unit :=
  if (400 <=? status_code r) && (status_code r <? 600)
  then Raise (HTTPError (status_code r))
  else Ok tt.

(** [_LOGGER.warning(fmt, location, exc)] *)
Definition log_warning (fmt location : str) (exc : exn) : M unit :=
  ([LoggedWarning fmt location exc], Ok tt).

(** [not location or not location.strip()] *)
Definition blank (location : str) : bool :=
  match location with
  | [] => true
  | _ => match Str.strip location with [] => true | _ => false end
  end.

Fixpoint mapM {A B} (f : A -> result B) (l : list A) : result (list B) :=
  match l with
  | [] => Ok []
  | a :: l' =>
      let? b := f a in
      let? bs := mapM f l' in
      Ok (b :: bs)
  end.

(** ** [_resolve_location] *)

(** The parts of the display name: those that are truthy are kept, and
    [", ".join] wants each of them to be a string. *)
Fixpoint kept_parts (parts : list value) : result (list str) :=
  match parts with
  | [] => Ok []
  | p :: rest =>
      if Py.truthy p
      then match p with
           | VStr s => let? r := kept_parts rest in Ok (s :: r)
           | _ => Raise TypeError
           end
      else kept_parts rest
  end.

Definition unable_to_geocode (location : str) : exn :=
  ValueError (lit "Unable to geocode location '" ++ location ++ lit "'.").

Definition _resolve_location (w : world) (location : str)
  : M (value * value * str) :=
  (response <- requests_get w (GeocodeRequest location) ;;
   lift (raise_for_status response) ;;;
   payload <- lift (json response) ;;
   lift (let? found := Py.get payload (lit "results") VNone in
         let results := Py.or found (VList []) in
         if negb (Py.truthy results) then Raise (unable_to_geocode location)
         else
           let? top_hit := Py.getitem results 0 in
           let? name := Py.get top_hit (lit "name") VNone in
           let? admin1 := Py.get top_hit (lit "admin1") VNone in
           let? country := Py.get top_hit (lit "country") VNone in
           let? parts := kept_parts [name; admin1; country] in
           let resolved_name := Str.join (lit ", ") parts in
           let? lat := Py.getkey top_hit (lit "latitude") in
           let? lon := Py.getkey top_hit (lit "longitude") in
           Ok (lat, lon, resolved_name)))%M.

(** ** [fetch_weather_summary] *)

Module Daily.
Record summary : Type := {
  max_temp_c : value;
  min_temp_c : value;
  precip_probability : value;
  precipitation_total_mm : value;
  uv_index_max : value;
  wind_speed_max_kmh : value
}.
Record entry : Type := {
  date : value;
  summary_of : summary;
  sunrise : value;
  sunset : value
}.
End Daily.

Module Hourly.
Record entry : Type := {
  time : value;
  temperature_c : value;
  precip_probability : value;
  relative_humidity : value;
  weather_code : value
}.
End Hourly.

Record current_conditions_t : Type := {
  temperature_c : value;
  windspeed_kmh : value;
  weather_code : value;
  observation_time : value
}.

(** [hourly_outlook] is [None] when the key is not in the returned dict. *)
Record WeatherSummary : Type := {
  location : str;
  latitude : value;
  longitude : value;
  current_conditions : current_conditions_t;
  daily_forecast : list Daily.entry;
  source : str;
  hourly_outlook : option (list Hourly.entry)
}.

(** [d.get(key, default)[idx]] *)
Definition field_at (d : value) (key : str) (default : value) (idx : Z)
  : result value :=
  let? column := Py.get d key default in
  Py.getitem column idx.

(** The dict appended to [daily_forecast] at [idx]. *)
Definition daily_entry_at (daily : value) (idx : Z) : result Daily.entry :=
  let? date := field_at daily (lit "time") (VList []) idx in
  let? max_temp := field_at daily (lit "temperature_2m_max") (VList [VNone]) idx in
  let? min_temp := field_at daily (lit "temperature_2m_min") (VList [VNone]) idx in
  let? precip_prob :=
    field_at daily (lit "precipitation_probability_max") (VList [VNone]) idx in
  let? precip_sum := field_at daily (lit "precipitation_sum") (VList [VNone]) idx in
  let? uv := field_at daily (lit "uv_index_max") (VList [VNone]) idx in
  let? wind := field_at daily (lit "wind_speed_10m_max") (VList [VNone]) idx in
  let? sunrise := field_at daily (lit "sunrise") (VList [VNone]) idx in
  let? sunset := field_at daily (lit "sunset") (VList [VNone]) idx in
  Ok {| Daily.date := date;
        Daily.summary_of :=
          {| Daily.max_temp_c := max_temp;
             Daily.min_temp_c := min_temp;
             Daily.precip_probability := precip_prob;
             Daily.precipitation_total_mm := precip_sum;
             Daily.uv_index_max := uv;
             Daily.wind_speed_max_kmh := wind |};
        Daily.sunrise := sunrise;
        Daily.sunset := sunset |}.

(** The loop [for idx in range(days_available)]. *)
Definition build_daily_forecast (daily : value) (days_available : Z)
  : result (list Daily.entry) :=
  mapM (daily_entry_at daily) (Py.range days_available).

(** [datetime.fromisoformat(time_str)] followed by the normalisation to
    UTC.  The message of the [ValueError] carries the refused string as it
    is, where Python shows its [repr]. *)
Definition parse_timestamp (w : world) (time_str : value) : result Z :=
  match time_str with
  | VStr s =>
      match fromisoformat w s with
      | Some d => Dt.to_utc d
      | None => Raise (ValueError (lit "Invalid isoformat string: " ++ s))
      end
  | _ => Raise TypeError
  end.

(** The dict appended to [next_24_hours] at [idx]. *)
Definition hourly_entry_at (hourly_data time_str : value) (idx : Z)
  : result Hourly.entry :=
  let? temperature := field_at hourly_data (lit "temperature_2m") (VList [VNone]) idx in
  let? precip_prob :=
    field_at hourly_data (lit "precipitation_probability") (VList [VNone]) idx in
  let? humidity :=
    field_at hourly_data (lit "relativehumidity_2m") (VList [VNone]) idx in
  let? code := field_at hourly_data (lit "weathercode") (VList [VNone]) idx in
  Ok {| Hourly.time := time_str;
        Hourly.temperature_c := temperature;
        Hourly.precip_probability := precip_prob;
        Hourly.relative_humidity := humidity;
        Hourly.weather_code := code |}.

(** The loop [for idx, time_str in enumerate(base_times)], from position
    [idx] on: [continue] goes on with the rest, [break] ends the list. *)
Fixpoint next_24_hours_from (w : world) (hourly_data : value) (now : Z)
  (idx : Z) (base_times : list value) : result (list Hourly.entry) :=
  match base_times with
  | [] => Ok []
  | time_str :: rest =>
      let? timestamp := parse_timestamp w time_str in
      if timestamp <? now
      then next_24_hours_from w hourly_data now (idx + 1) rest
      else
        let? horizon := Dt.add now (Dt.hours 24) in
        if timestamp >? horizon then Ok []
        else
          let? e := hourly_entry_at hourly_data time_str idx in
          let? es := next_24_hours_from w hourly_data now (idx + 1) rest in
          Ok (e :: es)
  end.

Definition open_meteo : str := lit "Open-Meteo (https://open-meteo.com)".

(** What follows [payload = response.json()]. *)
Definition summarize (w : world) (lat lon : value) (resolved_name : str)
  (days : Z) (include_hourly : bool) (payload : value)
  : result WeatherSummary :=
  let? current_weather := Py.get payload (lit "current_weather") (VDict []) in
  let current := Py.or current_weather (VDict []) in
  let? daily_data := Py.get payload (lit "daily") (VDict []) in
  let daily := Py.or daily_data (VDict []) in
  let? times := Py.get daily (lit "time") (VList []) in
  let? available := Py.len times in
  let days_available := Z.min days available in
  let? daily_forecast := build_daily_forecast daily days_available in
  let? temperature := Py.get current (lit "temperature") VNone in
  let? windspeed := Py.get current (lit "windspeed") VNone in
  let? weathercode := Py.get current (lit "weathercode") VNone in
  let? time := Py.get current (lit "time") VNone in
  let summary outlook :=
    {| location := resolved_name;
       latitude := lat;
       longitude := lon;
       current_conditions :=
         {| temperature_c := temperature;
            windspeed_kmh := windspeed;
            weather_code := weathercode;
            observation_time := time |};
       daily_forecast := daily_forecast;
       source := open_meteo;
       hourly_outlook := outlook |} in
  let? has_hourly :=
    if include_hourly then Py.contains payload (lit "hourly") else Ok false in
  if has_hourly then
    let? hourly_data := Py.getkey payload (lit "hourly") in
    let? base_times := Py.get hourly_data (lit "time") (VList []) in
    let now := utcnow w in
    let? elements := Py.iter base_times in
    let? next_24_hours := next_24_hours_from w hourly_data now 0 elements in
    Ok (summary (Some next_24_hours))
  else Ok (summary None).

Definition location_is_required : exn := ValueError (lit "location is required").

Definition fetch_weather_summary (w : world) (location : str) (days : Z)
  (include_hourly : bool) : M WeatherSummary :=
  (if blank location then raise location_is_required
   else
     resolved <- _resolve_location w location ;;
     let '(lat, lon, resolved_name) := resolved in
     response <- requests_get w (ForecastRequest lat lon include_hourly) ;;
     lift (raise_for_status response) ;;;
     payload <- lift (json response) ;;
     lift (summarize w lat lon resolved_name days include_hourly payload))%M.

(** ** [textwrap.shorten]

    The standard library's [TextWrapper], as [shorten] configures it:
    [max_lines = 1], no indentation, [drop_whitespace], [break_long_words]
    and [break_on_hyphens] set, placeholder [" [...]"].  A list of chunks
    has the next chunk at its head (the library pops them from the end of
    the reversed list). *)

Module Textwrap.

Definition placeholder : str := lit " [...]".

(** [chunk.strip() == ''] *)
Definition is_blank (chunk : str) : bool :=
  match Str.strip chunk with [] => true | _ => false end.

Definition concat (parts : list str) : str := List.concat parts.

(** [sum(map(len, cur_line))] *)
Definition total_len (cur_line : list str) : Z :=
  fold_right (fun c n => Str.len c + n) 0 cur_line.

(** [text.expandtabs(tabsize)], from column [col] on. *)
Fixpoint expandtabs_from (tabsize col : nat) (s : str) : str :=
  match s with
  | [] => []
  | c :: s' =>
      if (c =? 9)%N then
        match tabsize with
        | O => expandtabs_from tabsize col s'
        | _ =>
            let incr := (tabsize - col mod tabsize)%nat in
            repeat 32%N incr ++ expandtabs_from tabsize (col + incr) s'
        end
      else if ((c =? 10) || (c =? 13))%N then c :: expandtabs_from tabsize 0 s'
      else c :: expandtabs_from tabsize (S col) s'
  end.

(** [_munge_whitespace]: tabs expanded, then each of tab, newline, vertical
    tab, form feed, carriage return and space turned into a space. *)
Definition munge_whitespace (text : str) : str :=
  map (fun c => if ((9 <=? c) && (c <=? 13) || (c =? 32))%N then 32%N else c)
      (expandtabs_from 8 0 text).

(** [_split]: the chunks of the word-separator expression, empty ones
    removed. *)
Definition split_chunks (w : world) (text : str) : list str :=
  filter (fun c => negb (Str.eqb c [])) (wordsep_split w (munge_whitespace text)).

(** The inner [while chunks] loop: chunks go to the current line as long as
    they fit. *)
Fixpoint fill_line (width : Z) (cur_line : list str) (cur_len : Z)
  (chunks : list str) : list str * Z * list str :=
  match chunks with
  | [] => (cur_line, cur_len, [])
  | c :: rest =>
      if cur_len + Str.len c <=? width
      then fill_line width (cur_line ++ [c]) (cur_len + Str.len c) rest
      else (cur_line, cur_len, chunks)
  end.

Definition slice_from {A} (l : list A) (m : Z) : list A :=
  if 0 <=? m then skipn (Z.to_nat m) l
  else skipn (Z.to_nat (Z.of_nat (List.length l) + m)) l.

Fixpoint rfind_from (c : Str.char) (s : str) (i found : Z) : Z :=
  match s with
  | [] => found
  | x :: s' => rfind_from c s' (i + 1) (if (x =? c)%N then i else found)
  end.

(** [s.rfind(c, 0, stop)] *)
Definition rfind (c : Str.char) (s : str) (stop : Z) : Z :=
  rfind_from c (Py.slice_to s stop) 0 (-1).

Definition hyphen : Str.char := 45%N.

(** [_handle_long_word]: [chunk] is the next chunk, too long for any line;
    returns what is put on the current line and what stays in the chunk. *)
Definition handle_long_word (chunk : str) (cur_len width : Z) : str * str :=
  let space_left := if width <? 1 then 1 else width - cur_len in
  let pos := rfind hyphen chunk space_left in
  let stop :=
    if (Str.len chunk >? space_left) && (pos >? 0)
       && existsb (fun c => negb (c =? hyphen)%N) (Py.slice_to chunk pos)
    then pos + 1 else space_left in
  (Py.slice_to chunk stop, slice_from chunk stop).

(** The loop that makes room for the placeholder: chunks are taken off the
    end of the line ([rev_line] is the line reversed) until the last one is
    not blank and the placeholder fits. *)
Fixpoint with_placeholder (width : Z) (rev_line : list str) (cur_len : Z)
  : option str :=
  match rev_line with
  | [] => None
  | c :: rest =>
      if negb (is_blank c) && (cur_len + Str.len placeholder <=? width)
      then Some (concat (rev rev_line) ++ placeholder)
      else with_placeholder width rest (cur_len - Str.len c)
  end.

Inductive outcome : Type :=
| Continue (chunks lines : list str)
| Break (lines : list str).

(** A blank chunk at the start of a line is dropped, unless no line has
    been started yet. *)
Definition drop_leading (chunks lines : list str) : list str :=
  match chunks, lines with
  | c :: rest, _ :: _ => if is_blank c then rest else chunks
  | _, _ => chunks
  end.

(** When the line is full and the next chunk is too long for any line, a
    piece of it is put on the line. *)
Definition take_long_word (width : Z) (st : list str * Z * list str)
  : list str * Z * list str :=
  let '(cur_line, cur_len, chunks) := st in
  match chunks with
  | c :: rest =>
      if Str.len c >? width then
        let '(taken, remainder) := handle_long_word c cur_len width in
        let cur_line := cur_line ++ [taken] in
        (cur_line, total_len cur_line, remainder :: rest)
      else st
  | [] => st
  end.

(** A blank chunk at the end of the line is dropped. *)
Definition drop_trailing (cur_line : list str) (cur_len : Z) : list str * Z :=
  match rev cur_line with
  | c :: before =>
      if is_blank c then (rev before, cur_len - Str.len c)
      else (cur_line, cur_len)
  | [] => (cur_line, cur_len)
  end.

(** The end of a pass.  With [max_lines = 1] the line is stored as it is
    only when nothing but one blank chunk is left; otherwise the placeholder
    is put in and the loop is left. *)
Definition close_line (width : Z) (cur_line : list str) (cur_len : Z)
  (chunks lines : list str) : outcome :=
  match cur_line with
  | [] => Continue chunks lines
  | _ :: _ =>
      let nothing_left :=
        match chunks with
        | [] => true
        | [c] => is_blank c
        | _ => false
        end in
      if nothing_left && (cur_len <=? width)
      then Continue chunks (lines ++ [concat cur_line])
      else
        match with_placeholder width (rev cur_line) cur_len with
        | Some line => Break (lines ++ [line])
        | None =>
            match rev lines with
            | prev :: before =>
                let prev_line := Str.rstrip prev in
                if Str.len prev_line + Str.len placeholder <=? width
                then Break (rev before ++ [prev_line ++ placeholder])
                else Break (lines ++ [Str.lstrip placeholder])
            | [] => Break (lines ++ [Str.lstrip placeholder])
            end
        end
  end.

(** One pass of the outer [while chunks] loop of [_wrap_chunks]. *)
Definition wrap_line (width : Z) (chunks lines : list str) : outcome :=
  let chunks := drop_leading chunks lines in
  let '(cur_line, cur_len, chunks) :=
    take_long_word width (fill_line width [] 0 chunks) in
  let '(cur_line, cur_len) := drop_trailing cur_line cur_len in
  close_line width cur_line cur_len chunks lines.

(** What is left to wrap: decreases at every pass that continues. *)
Definition weight (chunks : list str) : nat :=
  fold_right (fun c n => S (List.length c + n)) O chunks.

(** *** The wrapping loop ends

    Every pass that continues leaves chunks of a smaller weight: it drops a
    chunk, moves one to the line, or cuts a piece off a long one. *)

Lemma weight_cons c chunks : weight (c :: chunks) = S (List.length c + weight chunks).
Proof. reflexivity. Qed.

Lemma fill_line_rest width chunks :
  forall cur_line cur_len line n rest,
    fill_line width cur_line cur_len chunks = (line, n, rest) ->
    (weight rest <= weight chunks)%nat.
Proof.
  induction chunks as [|c chunks IH]; intros cur_line cur_len line n rest;
    cbn [fill_line].
  - intros [= <- <- <-]. lia.
  - destruct (cur_len + Str.len c <=? width).
    + intros H. apply IH in H. rewrite weight_cons. lia.
    + intros [= <- <- <-]. lia.
Qed.

Lemma slice_from_length (s : str) (m : Z) :
  (List.length (slice_from s m) <= List.length s)%nat.
Proof.
  unfold slice_from. destruct (0 <=? m); rewrite length_skipn; lia.
Qed.

Lemma slice_from_shorter (s : str) (m : Z) :
  1 <= m -> s <> [] -> (List.length (slice_from s m) < List.length s)%nat.
Proof.
  intros Hm Hs. unfold slice_from.
  destruct (Z.leb_spec 0 m); [|lia].
  rewrite length_skipn. destruct s; [congruence|]. cbn [List.length]. lia.
Qed.

Lemma handle_long_word_stop chunk cur_len width :
  1 <= width - cur_len ->
  exists stop, 1 <= stop /\
    handle_long_word chunk cur_len width = (Py.slice_to chunk stop, slice_from chunk stop).
Proof.
  intros H. unfold handle_long_word.
  destruct (width <? 1) eqn:Ew.
  - set (pos := rfind hyphen chunk 1).
    destruct ((Str.len chunk >? 1) && (pos >? 0) && _) eqn:E.
    + exists (pos + 1). split; [|reflexivity].
      apply andb_prop in E as [E _]. apply andb_prop in E as [_ E].
      apply Z.gtb_lt in E. lia.
    + exists 1. split; [lia | reflexivity].
  - set (pos := rfind hyphen chunk (width - cur_len)).
    destruct ((Str.len chunk >? width - cur_len) && (pos >? 0) && _) eqn:E.
    + exists (pos + 1). split; [|reflexivity].
      apply andb_prop in E as [E _]. apply andb_prop in E as [_ E].
      apply Z.gtb_lt in E. lia.
    + exists (width - cur_len). split; [lia | reflexivity].
Qed.

Lemma handle_long_word_rest chunk cur_len width :
  (List.length (snd (handle_long_word chunk cur_len width)) <= List.length chunk)%nat.
Proof. unfold handle_long_word. simpl. apply slice_from_length. Qed.

Lemma fill_line_progress width c chunks line n rest :
  fill_line width [] 0 (c :: chunks) = (line, n, rest) ->
  (weight rest < weight (c :: chunks))%nat \/
  (line, n, rest) = ([], 0, c :: chunks).
Proof.
  cbn [fill_line]. destruct (0 + Str.len c <=? width) eqn:E.
  - intros H. apply fill_line_rest in H. left. rewrite weight_cons. lia.
  - intros [= <- <- <-]. right. reflexivity.
Qed.

Lemma take_long_word_rest width cur_line cur_len chunks line n rest :
  take_long_word width (cur_line, cur_len, chunks) = (line, n, rest) ->
  (weight rest <= weight chunks)%nat.
Proof.
  unfold take_long_word.
  destruct chunks as [|c chunks]; [intros [= <- <- <-]; lia|].
  destruct (Str.len c >? width); [|intros [= <- <- <-]; lia].
  pose proof (handle_long_word_rest c cur_len width) as H.
  destruct (handle_long_word c cur_len width) as [taken remainder].
  simpl in H. intros [= <- <- <-]. rewrite !weight_cons. lia.
Qed.

Lemma take_long_word_progress width c chunks line n rest :
  1 <= width ->
  fill_line width [] 0 (c :: chunks) = ([], 0, c :: chunks) ->
  take_long_word width ([], 0, c :: chunks) = (line, n, rest) ->
  (weight rest < weight (c :: chunks))%nat.
Proof.
  intros Hw Hfill. cbn [fill_line] in Hfill.
  destruct (0 + Str.len c <=? width) eqn:E.
  - exfalso. apply fill_line_rest in Hfill. rewrite weight_cons in Hfill. lia.
  - apply Z.leb_gt in E. unfold take_long_word.
    replace (Str.len c >? width) with true by (symmetry; apply Z.gtb_lt; lia).
    destruct (handle_long_word_stop c 0 width) as (stop & Hstop & Heq); [lia|].
    rewrite Heq. intros [= <- <- <-]. rewrite !weight_cons.
    assert (c <> []) as Hc by (intros ->; unfold Str.len in E; simpl in E; lia).
    pose proof (slice_from_shorter c stop Hstop Hc). lia.
Qed.

Lemma drop_leading_rest chunks lines :
  (weight (drop_leading chunks lines) <= weight chunks)%nat.
Proof.
  unfold drop_leading. destruct chunks as [|c rest]; [lia|].
  destruct lines; [lia|]. destruct (is_blank c); [rewrite weight_cons|]; lia.
Qed.

Lemma close_line_chunks width cur_line cur_len chunks lines chunks' lines' :
  close_line width cur_line cur_len chunks lines = Continue chunks' lines' ->
  chunks' = chunks.
Proof.
  unfold close_line. destruct cur_line; [congruence|].
  destruct (_ && _); [congruence|].
  destruct (with_placeholder _ _ _); [congruence|].
  destruct (rev lines); [congruence|].
  destruct (_ <=? _); congruence.
Qed.

Lemma wrap_line_decreases width chunks lines chunks' lines' :
  1 <= width -> chunks <> [] ->
  wrap_line width chunks lines = Continue chunks' lines' ->
  (weight chunks' < weight chunks)%nat.
Proof.
  intros Hw Hne. unfold wrap_line.
  pose proof (drop_leading_rest chunks lines) as Hdrop.
  destruct (drop_leading chunks lines) as [|c rest] eqn:Ed.
  - simpl. intros [= <- _].
    destruct chunks; [congruence | rewrite weight_cons; simpl; lia].
  - destruct (fill_line width [] 0 (c :: rest)) as [[l0 n0] r0] eqn:Ef.
    destruct (take_long_word width (l0, n0, r0)) as [[l1 n1] r1] eqn:Et.
    destruct (drop_trailing l1 n1) as [l2 n2].
    intros H. apply close_line_chunks in H. subst chunks'.
    destruct (fill_line_progress _ _ _ _ _ _ Ef) as [Hlt | [= -> -> ->]].
    + apply take_long_word_rest in Et. lia.
    + apply (take_long_word_progress _ _ _ _ _ _ Hw Ef) in Et. lia.
Qed.

Equations? wrap_loop (width : positive) (chunks lines : list str) : list str
  by wf (weight chunks) lt :=
  wrap_loop width [] lines := lines;
  wrap_loop width (c :: rest) lines
    with Logic.inspect (wrap_line (Z.pos width) (c :: rest) lines) := {
    | exist _ (Break lines') _ := lines';
    | exist _ (Continue chunks' lines') Hpass := wrap_loop width chunks' lines' }.
Proof.
  apply (wrap_line_decreases (Z.pos width) (c :: rest) lines _ lines');
    [lia | discriminate | exact Hpass].
Qed.


(** [_wrap_chunks]: the two checks on the width, then the loop. *)
Definition _wrap_chunks (width : Z) (chunks : list str) : result (list str) :=
  if width <=? 0
  then Raise (ValueError (lit "invalid width " ++ Str.repr_int width
                          ++ lit " (must be > 0)"))
  else if Str.len (Str.lstrip placeholder) >? width
  then Raise (ValueError (lit "placeholder too large for max width"))
  else Ok (wrap_loop (Z.to_pos width) chunks []).

Definition newline : str := [10%N].

(** [shorten(text, width)]: whitespace collapsed, then one wrapped line. *)
Definition shorten (w : world) (text : str) (width : Z) : result str :=
  let text := Str.join (lit " ") (Str.split (Str.strip text)) in
  let? lines := _wrap_chunks width (split_chunks w text) in
  Ok (Str.join newline lines).

End Textwrap.

(** ** [fetch_safety_brief] *)

Module Safety.
Record SafetyHeadline : Type := {
  title : str;
  link : str;
  published : str;
  snippet : str
}.
Record SafetyBrief : Type := {
  location : str;
  headlines : list SafetyHeadline;
  source : str
}.
End Safety.

(** [(item.findtext(name) or "").strip()] *)
Definition stripped_text (item : element) (name : str) : str :=
  Str.strip (match ET.findtext item name with
             | Some ((_ :: _) as s) => s
             | _ => []
             end).

(** [textwrap.shorten(description.replace("<br>", " ").replace("\n", " "),
    width=240)] *)
Definition snippet_of (w : world) (description : str) : result str :=
  Textwrap.shorten w
    (Str.replace (Str.replace description (lit "<br>") (lit " "))
                 Textwrap.newline (lit " "))
    240.

(** The body of the loop over the items: [None] stands for [continue]. *)
Definition headline_of (w : world) (item : element)
  : result (option Safety.SafetyHeadline) :=
  let title := stripped_text item (lit "title") in
  let link := stripped_text item (lit "link") in
  let pub_date := stripped_text item (lit "pubDate") in
  let description := stripped_text item (lit "description") in
  let? snippet := snippet_of w description in
  match title, link with
  | _ :: _, _ :: _ =>
      Ok (Some {| Safety.title := title;
                  Safety.link := link;
                  Safety.published := pub_date;
                  Safety.snippet := snippet |})
  | _, _ => Ok None
  end.

Fixpoint collect_headlines (w : world) (items : list element)
  : result (list Safety.SafetyHeadline) :=
  match items with
  | [] => Ok []
  | item :: rest =>
      let? h := headline_of w item in
      let? hs := collect_headlines w rest in
      Ok (match h with Some x => x :: hs | None => hs end)
  end.

(** The [try] block: parse the body, go through
    [tree.findall(".//item")[:max_items]]. *)
Definition parse_headlines (w : world) (body : str) (max_items : Z)
  : result (list Safety.SafetyHeadline) :=
  let? tree := xml_fromstring w body in
  collect_headlines w
    (Py.slice_to (ET.findall_descendants tree (lit "item")) max_items).

(** [try: body except Exception as exc: handler(exc)] *)
Definition try_except {A} (body : M A) (handler : exn -> M A) : M A :=
  match body with
  | (t, Raise exc) => let (t', r) := handler exc in (t ++ t', r)
  | (t, Ok a) => (t, Ok a)
  end.

Definition failed_to_parse : str := lit "Failed to parse safety brief for %s: %s".

Definition no_headlines (location : str) : exn :=
  ValueError (lit "Unable to find recent safety headlines for '" ++ location
              ++ lit "'.").

Definition query_of (location : str) : str :=
  location ++ lit " travel warning OR safety advisory OR disruption OR protest".

Definition google_news : str := lit "Google News RSS".

(** [text response] is the body as decoded after
    [response.encoding = response.apparent_encoding]. *)
Definition fetch_safety_brief (w : world) (location : str) (max_items : Z)
  (language : str) : M Safety.SafetyBrief :=
  (if blank location then raise location_is_required
   else
     response <- requests_get w
       (NewsRequest (query_of location) language
          (Str.after_last Textwrap.hyphen language)
          (Str.replace language (lit "-") (lit ":"))) ;;
     lift (raise_for_status response) ;;;
     headlines <- try_except
       (lift (parse_headlines w (text response) max_items))
       (fun exc => log_warning failed_to_parse location exc ;;; raise exc) ;;
     match headlines with
     | [] => raise (no_headlines location)
     | _ :: _ =>
         ret {| Safety.location := location;
                Safety.headlines := headlines;
                Safety.source := google_news |}
     end)%M.

(** ** Concrete surroundings, for the examples *)

Module Sample.

Definition s (x : string) : value := VStr (lit x).

(** Runs of whitespace and runs of anything else, alternating: the chunks of
    a text without hyphens or dashes. *)
Fixpoint runs (cur : str) (text : str) : list str :=
  match text with
  | [] => [rev cur]
  | c :: text' =>
      match cur with
      | [] => runs [c] text'
      | x :: _ =>
          if Bool.eqb (Str.isspace x) (Str.isspace c) then runs (c :: cur) text'
          else rev cur :: runs [c] text'
      end
  end.

(** 2025-01-01T00:00:00 is day 739251 after 0001-01-01. *)
Definition at_hour (h : Z) : Z := (739251 * 24 + h) * 3600 * 1000000.

Definition noon : Z := at_hour 12.

(** A few ISO strings: naive readings of 2025-01-01 and 2025-01-02, and one
    with an offset of +05:30, which is 13:00 in UTC. *)
Definition iso_table : list (str * Dt.datetime) :=
  [ (lit "2025-01-01T11:00", {| Dt.wall := at_hour 11; Dt.utcoffset := None |});
    (lit "2025-01-01T18:30+05:30",
      {| Dt.wall := at_hour 18 + 1800000000;
         Dt.utcoffset := Some (19800 * 1000000) |});
    (lit "2025-01-02T12:00", {| Dt.wall := at_hour 36; Dt.utcoffset := None |});
    (lit "2025-01-02T13:00", {| Dt.wall := at_hour 37; Dt.utcoffset := None |}) ].

Definition iso (x : str) : option Dt.datetime :=
  option_map snd (find (fun p => Str.eqb x (fst p)) iso_table).

Definition ok_json (payload : value) : response :=
  {| status_code := 200; json := Ok payload; text := [] |}.

Definition ok_text (body : str) : response :=
  {| status_code := 200; json := Raise JSONDecodeError; text := body |}.

Definition jaipur : value :=
  VDict [ (lit "results",
           VList [ VDict [ (lit "name", s "Jaipur");
                           (lit "admin1", s "Rajasthan");
                           (lit "country", s "India");
                           (lit "latitude", VFloat (S754_finite false 215 (-3)));
                           (lit "longitude", VFloat (S754_finite false 607 (-3))) ] ]) ].


(** A world whose geocoder knows Jaipur, whose forecast is [payload], whose
    news feed parses to [feed], at noon of 2025-01-01. *)
Definition world_of (payload : value) (feed : result element) : world :=
  {| http_get := fun r =>
       match r with
       | GeocodeRequest _ => Ok (ok_json jaipur)
       | ForecastRequest _ _ _ => Ok (ok_json payload)
       | NewsRequest _ _ _ _ => Ok (ok_text (lit "<rss/>"))
       end;
     xml_fromstring := fun _ => feed;
     fromisoformat := iso;
     utcnow := noon;
     wordsep_split := runs [] |}.

(** The same world with a geocoder that finds nothing. *)
Definition nowhere (w : world) : world :=
  {| http_get := fun r =>
       match r with
       | GeocodeRequest _ => Ok (ok_json (VDict []))
       | _ => http_get w r
       end;
     xml_fromstring := xml_fromstring w;
     fromisoformat := fromisoformat w;
     utcnow := utcnow w;
     wordsep_split := wordsep_split w |}.

Definition leaf (name text : string) : element :=
  Element (lit name) (Some (lit text)) [].

Definition item (title link : string) : element :=
  Element (lit "item") None
    [ leaf "title" title; leaf "link" link;
      leaf "pubDate" "Wed, 01 Jan 2025 09:00:00 GMT";
      leaf "description" "Roads closed<br>near the fort" ].

Definition rss (items : list element) : element :=
  Element (lit "rss") None [ Element (lit "channel") None items ].

(** A forecast with two days and three hours, every column present. *)
Definition two_days : value :=
  VDict
    [ (lit "current_weather",
       VDict [ (lit "temperature", VFloat (S754_finite false 45 (-1)));
               (lit "windspeed", VFloat (S754_finite false 17 (-1)));
               (lit "weathercode", VInt 1);
               (lit "time", s "2025-01-01T12:00") ]);
      (lit "daily",
       VDict [ (lit "time", VList [s "2025-01-01"; s "2025-01-02"]);
               (lit "temperature_2m_max", VList [VInt 24; VInt 25]);
               (lit "temperature_2m_min", VList [VInt 9; VInt 10]);
               (lit "precipitation_probability_max", VList [VInt 0; VInt 5]);
               (lit "sunrise", VList [s "2025-01-01T07:14"; s "2025-01-02T07:14"]);
               (lit "sunset", VList [s "2025-01-01T17:44"; s "2025-01-02T17:45"]);
               (lit "uv_index_max", VList [VInt 5; VInt 5]);
               (lit "wind_speed_10m_max", VList [VInt 11; VInt 9]);
               (lit "precipitation_sum", VList [VInt 0; VInt 0]) ]);
      (lit "hourly",
       VDict [ (lit "time",
                VList [s "2025-01-01T11:00"; s "2025-01-01T18:30+05:30";
                       s "2025-01-02T13:00"]);
               (lit "temperature_2m", VList [VInt 20; VInt 22; VInt 23]);
               (lit "precipitation_probability", VList [VInt 0; VInt 0; VInt 0]);
               (lit "weathercode", VList [VInt 1; VInt 1; VInt 2]);
               (lit "relativehumidity_2m", VList [VInt 40; VInt 35; VInt 30]) ]) ].

(** A forecast whose daily block has the dates only. *)
Definition dates_only : value :=
  VDict [ (lit "daily",
           VDict [ (lit "time", VList [s "2025-01-01"; s "2025-01-02"]) ]) ].

(** A forecast whose only hour is exactly 24 hours after [noon]. *)
Definition one_day_ahead : value :=
  VDict [ (lit "hourly",
           VDict [ (lit "time", VList [s "2025-01-02T12:00"]);
                   (lit "temperature_2m", VList [VInt 21]);
                   (lit "precipitation_probability", VList [VInt 0]);
                   (lit "weathercode", VList [VInt 1]);
                   (lit "relativehumidity_2m", VList [VInt 40]) ]) ].

(** A forecast whose only hour is already past at [noon]. *)
Definition one_hour_ago : value :=
  VDict [ (lit "hourly",
           VDict [ (lit "time", VList [s "2025-01-01T11:00"]);
                   (lit "temperature_2m", VList [VInt 19]) ]) ].

(** What the tool is expected to return for Jaipur in these worlds. *)
Definition jaipur_lat : value := VFloat (S754_finite false 215 (-3)).
Definition jaipur_lon : value := VFloat (S754_finite false 607 (-3)).

Definition jaipur_trace (include_hourly : bool) : list event :=
  [ Requested (GeocodeRequest (lit "Jaipur"));
    Requested (ForecastRequest jaipur_lat jaipur_lon include_hourly) ].

Definition day (date : string) (hi lo rain uv wind : Z) (rise set : string)
  : Daily.entry :=
  {| Daily.date := s date;
     Daily.summary_of :=
       {| Daily.max_temp_c := VInt hi;
          Daily.min_temp_c := VInt lo;
          Daily.precip_probability := VInt rain;
          Daily.precipitation_total_mm := VInt 0;
          Daily.uv_index_max := VInt uv;
          Daily.wind_speed_max_kmh := VInt wind |};
     Daily.sunrise := s rise;
     Daily.sunset := s set |}.

Definition first_day : Daily.entry :=
  day "2025-01-01" 24 9 0 5 11 "2025-01-01T07:14" "2025-01-01T17:44".
Definition second_day : Daily.entry :=
  day "2025-01-02" 25 10 5 5 9 "2025-01-02T07:14" "2025-01-02T17:45".

Definition one_pm : Hourly.entry :=
  {| Hourly.time := s "2025-01-01T18:30+05:30";
     Hourly.temperature_c := VInt 22;
     Hourly.precip_probability := VInt 0;
     Hourly.relative_humidity := VInt 35;
     Hourly.weather_code := VInt 1 |}.

Definition jaipur_summary (forecast : list Daily.entry)
  (outlook : option (list Hourly.entry)) : WeatherSummary :=
  {| location := lit "Jaipur, Rajasthan, India";
     latitude := jaipur_lat;
     longitude := jaipur_lon;
     current_conditions :=
       {| temperature_c := VFloat (S754_finite false 45 (-1));
          windspeed_kmh := VFloat (S754_finite false 17 (-1));
          weather_code := VInt 1;
          observation_time := s "2025-01-01T12:00" |};
     daily_forecast := forecast;
     source := open_meteo;
     hourly_outlook := outlook |}.

Definition no_conditions : current_conditions_t :=
  {| temperature_c := VNone;
     windspeed_kmh := VNone;
     weather_code := VNone;
     observation_time := VNone |}.

Definition no_feed : result element := Raise (ParseError (lit "syntax error")).

Definition untitled : element := item "" "http://news.example/a".
Definition strike : element := item "Strike" "http://news.example/b".
Definition flood : element := item "Flood" "http://news.example/c".

(** The headline the tool builds from one of the items above. *)
Definition headline (title link : string) : Safety.SafetyHeadline :=
  {| Safety.title := lit title;
     Safety.link := lit link;
     Safety.published := lit "Wed, 01 Jan 2025 09:00:00 GMT";
     Safety.snippet := lit "Roads closed near the fort" |}.

Definition jaipur_brief (headlines : list Safety.SafetyHeadline)
  : Safety.SafetyBrief :=
  {| Safety.location := lit "Jaipur";
     Safety.headlines := headlines;
     Safety.source := google_news |}.

End Sample.

(** * Properties *)

(** ** Vocabulary of the properties *)

(** [payload] is the decoded body of the forecast response of the call. *)
Definition forecast_is (w : world) (location : str) (include_hourly : bool)
  (payload : value) : Prop :=
  exists t lat lon name response,
    _resolve_location w location = (t, Ok (lat, lon, name)) /\
    http_get w (ForecastRequest lat lon include_hourly) = Ok response /\
    raise_for_status response = Ok tt /\
    json response = Ok payload.

(** [daily.get("time", [])] *)
Definition daily_times (payload : value) : result value :=
  let? daily := Py.get payload (lit "daily") (VDict []) in
  Py.get (Py.or daily (VDict [])) (lit "time") (VList []).

(** What [enumerate(base_times)] goes through. *)
Definition hourly_times (payload : value) : result (list value) :=
  let? hourly_data := Py.getkey payload (lit "hourly") in
  let? base_times := Py.get hourly_data (lit "time") (VList []) in
  Py.iter base_times.

(** One list is the other with some elements left out. *)
Inductive subsequence {A : Type} : list A -> list A -> Prop :=
| sub_nil : forall l, subsequence [] l
| sub_keep : forall x l1 l2, subsequence l1 l2 -> subsequence (x :: l1) (x :: l2)
| sub_skip : forall x l1 l2, subsequence l1 l2 -> subsequence l1 (x :: l2).

(** The timestamp of an entry lies in the window that starts at [now] and
    ends, inclusively, 24 hours later. *)
Definition in_window (w : world) (now : Z) (e : Hourly.entry) : Prop :=
  exists ts, parse_timestamp w (Hourly.time e) = Ok ts /\
             now <= ts <= now + Dt.hours 24.




(** The invariants of the wrapping loop. *)
Module Wrapping.
Import Textwrap.




End Wrapping.

(** The request [fetch_safety_brief] sends. *)
Definition news_request (location language : str) : request :=
  NewsRequest (query_of location) language
    (Str.after_last Textwrap.hyphen language)
    (Str.replace language (lit "-") (lit ":")).

(** [tree] is the parsed body of the feed the call receives. *)
Definition feed_is (w : world) (location language : str) (tree : element)
  : Prop :=
  exists response,
    http_get w (news_request location language) = Ok response /\
    raise_for_status response = Ok tt /\
    xml_fromstring w (text response) = Ok tree.

(** An item qualifies when its stripped title and link are not empty. *)
Definition qualifies (item : element) : bool :=
  match stripped_text item (lit "title"), stripped_text item (lit "link") with
  | _ :: _, _ :: _ => true
  | _, _ => false
  end.

(** The description with "<br>" and newlines turned into spaces. *)
Definition collapsed (description : str) : str :=
  Str.replace (Str.replace description (lit "<br>") (lit " "))
              Textwrap.newline (lit " ").

(** [h] is the headline the loop builds from [item]. *)
Definition made_from (w : world) (item : element) (h : Safety.SafetyHeadline)
  : Prop :=
  Safety.title h = stripped_text item (lit "title") /\
  Safety.link h = stripped_text item (lit "link") /\
  Safety.published h = stripped_text item (lit "pubDate") /\
  Textwrap.shorten w (collapsed (stripped_text item (lit "description"))) 240
  = Ok (Safety.snippet h).

(** The headlines C1 describes: the first [m] qualifying items of the whole
    feed. *)
Definition first_qualifying (tree : element) (m : Z) : list element :=
  firstn (Z.to_nat m)
         (filter qualifies (ET.findall_descendants tree (lit "item"))).


(** ** Reasoning about computations *)

Lemma rbind_ok {A B} (r : result A) (k : A -> result B) (b : B) :
  rbind r k = Ok b -> exists a, r = Ok a /\ k a = Ok b.
Proof. destruct r as [a|e]; simpl; [eauto | discriminate]. Qed.

Lemma bind_ok {A B} (m : M A) (k : A -> M B) (t : list event) (b : B) :
  bind m k = (t, Ok b) ->
  exists t1 a t2, m = (t1, Ok a) /\ k a = (t2, Ok b) /\ t = t1 ++ t2.
Proof.
  destruct m as [t1 [a|e]]; simpl; [|discriminate].
  destruct (k a) as [t2 r] eqn:E. intros [= <- ->]. eauto 6.
Qed.

Lemma lift_ok {A} (r : result A) (t : list event) (a : A) :
  lift r = (t, Ok a) -> r = Ok a /\ t = [].
Proof. unfold lift. intros [= <- ->]. auto. Qed.

(** Splits a hypothesis [let? x := r in k = Ok _] into the two steps. *)
Tactic Notation "step" hyp(H) :=
  let x := fresh "x" in
  let E := fresh "E" in
  apply rbind_ok in H; destruct H as (x & E & H).

Tactic Notation "step" hyp(H) "as" ident(x) ident(E) :=
  apply rbind_ok in H; destruct H as (x & E & H).

Lemma fetch_weather_summary_ok w location days include_hourly t s :
  fetch_weather_summary w location days include_hourly = (t, Ok s) ->
  blank location = false /\
  exists t1 lat lon name response payload,
    _resolve_location w location = (t1, Ok (lat, lon, name)) /\
    http_get w (ForecastRequest lat lon include_hourly) = Ok response /\
    raise_for_status response = Ok tt /\
    json response = Ok payload /\
    summarize w lat lon name days include_hourly payload = Ok s /\
    t = t1 ++ [Requested (ForecastRequest lat lon include_hourly)].
Proof.
  unfold fetch_weather_summary. destruct (blank location); [discriminate|].
  intros H. split; [reflexivity|].
  apply bind_ok in H as (t1 & [[lat lon] name] & t2 & Hres & H & ->).
  apply bind_ok in H as (t3 & response & t4 & Hget & H & ->).
  unfold requests_get in Hget. injection Hget as <- Hget.
  apply bind_ok in H as (t5 & [] & t6 & Hst & H & ->).
  apply lift_ok in Hst as [Hst ->].
  apply bind_ok in H as (t7 & payload & t8 & Hjs & H & ->).
  apply lift_ok in Hjs as [Hjs ->].
  apply lift_ok in H as [H ->].
  exists t1, lat, lon, name, response, payload.
  rewrite !app_nil_r. simpl. auto 10.
Qed.

Lemma fetch_weather_summary_eq w location days include_hourly
    t1 lat lon name response payload :
  blank location = false ->
  _resolve_location w location = (t1, Ok (lat, lon, name)) ->
  http_get w (ForecastRequest lat lon include_hourly) = Ok response ->
  raise_for_status response = Ok tt ->
  json response = Ok payload ->
  fetch_weather_summary w location days include_hourly =
  (t1 ++ [Requested (ForecastRequest lat lon include_hourly)],
   summarize w lat lon name days include_hourly payload).
Proof.
  intros Hb Hres Hget Hst Hjs. unfold fetch_weather_summary.
  rewrite Hb, Hres. unfold requests_get. cbn [bind]. rewrite Hget.
  cbn [bind lift]. rewrite Hst, Hjs. cbn.
  destruct (summarize _ _ _ _ _ _ _); rewrite ?app_nil_r; reflexivity.
Qed.

Lemma blank_strip location : blank location = true <-> Str.strip location = [].
Proof.
  unfold blank. destruct location as [|c l]; [split; reflexivity|].
  destruct (Str.strip (c :: l)); split; congruence.
Qed.

(** ** The daily forecast *)

Lemma range_nonpositive n : n <= 0 -> Py.range n = [].
Proof.
  intros H. unfold Py.range. replace (Z.to_nat n) with O by lia. reflexivity.
Qed.

Lemma mapM_length {A B} (f : A -> result B) (l : list A) (bs : list B) :
  mapM f l = Ok bs -> List.length bs = List.length l.
Proof.
  revert bs. induction l as [|a l IH]; intros bs; cbn [mapM].
  - intros [= <-]. reflexivity.
  - intros H. step H. step H. injection H as <-. simpl. f_equal. auto.
Qed.

Lemma daily_entry_at_date daily idx e :
  daily_entry_at daily idx = Ok e ->
  field_at daily (lit "time") (VList []) idx = Ok (Daily.date e).
Proof.
  unfold daily_entry_at. intros H. step H.
  do 8 step H. injection H as <-. exact E.
Qed.

Lemma getitem_list l n x :
  Py.getitem (VList l) (Z.of_nat n) = Ok x -> nth_error l n = Some x.
Proof.
  unfold Py.getitem, Py.index.
  destruct ((0 <=? Z.of_nat n) && (Z.of_nat n <? Z.of_nat (List.length l))) eqn:E.
  - rewrite Nat2Z.id. destruct (nth_error l n); [congruence | discriminate].
  - destruct ((Z.of_nat n <? 0) && _) eqn:E'; [|discriminate].
    apply andb_prop in E' as [E' _]. apply Z.ltb_lt in E'. lia.
Qed.

Lemma nth_error_skipn {A} (l : list A) n x :
  nth_error l n = Some x -> skipn n l = x :: skipn (S n) l.
Proof.
  revert n. induction l as [|a l IH]; intros [|n]; simpl; try discriminate.
  - intros [= ->]. reflexivity.
  - intros H. apply IH in H. exact H.
Qed.

Lemma build_daily_dates daily times n :
  Py.get daily (lit "time") (VList []) = Ok (VList times) ->
  forall a entries,
    mapM (daily_entry_at daily) (map Z.of_nat (seq a n)) = Ok entries ->
    map Daily.date entries = firstn n (skipn a times).
Proof.
  intros Htimes. induction n as [|n IH]; intros a entries; cbn [seq map mapM].
  - intros [= <-]. reflexivity.
  - intros H. step H. step H. injection H as <-.
    apply daily_entry_at_date in E. unfold field_at in E. rewrite Htimes in E.
    cbn [rbind] in E. apply getitem_list in E.
    rewrite (nth_error_skipn _ _ _ E). cbn [map firstn]. f_equal. auto.
Qed.

Lemma build_daily_forecast_ok daily k entries :
  build_daily_forecast daily k = Ok entries ->
  List.length entries = Z.to_nat k /\
  forall times,
    Py.get daily (lit "time") (VList []) = Ok (VList times) ->
    map Daily.date entries = firstn (Z.to_nat k) times.
Proof.
  unfold build_daily_forecast, Py.range. intros H. split.
  - apply mapM_length in H. rewrite H, length_map, length_seq. reflexivity.
  - intros times Ht. apply (build_daily_dates _ _ _ Ht 0%nat _ H).
Qed.

(** ** The hourly outlook *)

Lemma hourly_entry_at_time hourly_data time_str idx e :
  hourly_entry_at hourly_data time_str idx = Ok e -> Hourly.time e = time_str.
Proof.
  unfold hourly_entry_at. intros H. do 4 step H. injection H as <-. reflexivity.
Qed.

Lemma dt_add_ok now delta t : Dt.add now delta = Ok t -> t = now + delta.
Proof.
  unfold Dt.add, Dt.in_range. destruct (_ && _); congruence.
Qed.

Lemma next_24_hours_from_ok w hourly_data now times :
  forall idx es,
    next_24_hours_from w hourly_data now idx times = Ok es ->
    Forall (in_window w now) es /\ subsequence (map Hourly.time es) times.
Proof.
  induction times as [|time_str rest IH]; intros idx es; cbn [next_24_hours_from].
  - intros [= <-]. split; constructor.
  - intros H. step H. rename x into ts.
    destruct (Z.ltb_spec ts now) as [Hlt | Hge].
    + apply IH in H as [Hw Hs]. split; [exact Hw | constructor; exact Hs].
    + step H. rename x into horizon. apply dt_add_ok in E0. subst horizon.
      destruct (ts >? now + Dt.hours 24) eqn:Egt.
      * injection H as <-. split; constructor.
      * step H. step H. injection H as <-.
        apply IH in E1 as [Hw Hs].
        pose proof (hourly_entry_at_time _ _ _ _ E0) as Ht.
        split.
        -- constructor; [|exact Hw]. exists ts. rewrite Ht. split; [exact E|].
           rewrite Z.gtb_ltb in Egt. apply Z.ltb_ge in Egt. lia.
        -- cbn [map]. rewrite Ht. constructor. exact Hs.
Qed.

(** ** What [summarize] returns *)

Lemma summarize_ok w lat lon name days include_hourly payload s :
  summarize w lat lon name days include_hourly payload = Ok s ->
  exists times n,
    daily_times payload = Ok times /\
    Py.len times = Ok n /\
    (forall l, times = VList l ->
       List.length (daily_forecast s) = Z.to_nat (Z.min days n) /\
       map Daily.date (daily_forecast s) = firstn (Z.to_nat (Z.min days n)) l) /\
    ((hourly_outlook s = None /\
      (if include_hourly then Py.contains payload (lit "hourly") else Ok false)
      = Ok false) \/
     (exists upstream es,
        include_hourly = true /\
        Py.contains payload (lit "hourly") = Ok true /\
        hourly_times payload = Ok upstream /\
        hourly_outlook s = Some es /\
        Forall (in_window w (utcnow w)) es /\
        subsequence (map Hourly.time es) upstream)).
Proof.
  unfold summarize. intros H.
  step H as current_weather Ecur.
  step H as daily_data Edaily.
  step H as times Etimes.
  step H as n Elen.
  step H as forecast Ebuild.
  do 4 step H.
  step H as has_hourly Ehas.
  exists times, n. split; [|split; [exact Elen|split]].
  - unfold daily_times. rewrite Edaily. exact Etimes.
  - intros l ->. apply build_daily_forecast_ok in Ebuild as [Hlen Hdates].
    specialize (Hdates l Etimes).
    destruct has_hourly.
    + do 4 step H. injection H as <-. cbn. auto.
    + injection H as <-. cbn. auto.
  - destruct has_hourly.
    + right.
      step H as hourly_data Ehd.
      step H as base_times Ebase.
      step H as upstream Eiter.
      step H as es Eloop.
      injection H as <-.
      exists upstream, es.
      destruct include_hourly; [|discriminate].
      apply next_24_hours_from_ok in Eloop as [Hw Hs].
      repeat split; auto.
      unfold hourly_times. rewrite Ehd. cbn [rbind]. rewrite Ebase. exact Eiter.
    + left. injection H as <-. auto.
Qed.

(** The number of days asked for only decides how much of the daily series
    is kept. *)
Lemma summarize_nonpositive_days w lat lon name d0 days include_hourly payload s0 :
  summarize w lat lon name d0 include_hourly payload = Ok s0 ->
  days <= 0 ->
  summarize w lat lon name days include_hourly payload =
  Ok {| location := location s0;
        latitude := latitude s0;
        longitude := longitude s0;
        current_conditions := current_conditions s0;
        daily_forecast := [];
        source := source s0;
        hourly_outlook := hourly_outlook s0 |}.
Proof.
  unfold summarize. intros H Hdays.
  step H as current_weather Ecur. rewrite Ecur. cbn [rbind].
  step H as daily_data Edaily. rewrite Edaily. cbn [rbind].
  step H as times Etimes. rewrite Etimes. cbn [rbind].
  step H as n Elen. rewrite Elen. cbn [rbind].
  unfold build_daily_forecast at 1.
  rewrite range_nonpositive by lia. cbn [mapM rbind].
  step H as forecast Ebuild. clear Ebuild.
  step H as temperature E1. rewrite E1. cbn [rbind].
  step H as windspeed E2. rewrite E2. cbn [rbind].
  step H as weathercode E3. rewrite E3. cbn [rbind].
  step H as time E4. rewrite E4. cbn [rbind].
  step H as has_hourly Ehas. rewrite Ehas. cbn [rbind].
  destruct has_hourly.
  - step H as hourly_data Ehd. rewrite Ehd. cbn [rbind].
    step H as base_times Ebase. rewrite Ebase. cbn [rbind].
    step H as upstream Eiter. rewrite Eiter. cbn [rbind].
    step H as es Eloop. rewrite Eloop. cbn [rbind].
    injection H as <-. reflexivity.
  - injection H as <-. reflexivity.
Qed.

(** ** Claims on [fetch_weather_summary] and [_resolve_location] *)

Import Sample.

(** C2, at a failing input.  The forecast has two dates and no other daily
    column.  At index 0 the default [[None]] supplies a null, at index 1 the
    same default is too short: the call ends in [IndexError] instead of
    returning an entry with nulls. *)
Theorem C2_missing_daily_column_raises :
  field_at (VDict [(lit "time", VList [s "2025-01-01"; s "2025-01-02"])])
           (lit "temperature_2m_max") (VList [VNone]) 0 = Ok VNone /\
  field_at (VDict [(lit "time", VList [s "2025-01-01"; s "2025-01-02"])])
           (lit "temperature_2m_max") (VList [VNone]) 1 = Raise IndexError /\
  snd (fetch_weather_summary (world_of dates_only no_feed) (lit "Jaipur") 2 false)
  = Raise IndexError.
Proof. repeat split; vm_compute; reflexivity. Qed.

(** C3 as stated fails: an hour exactly 24 hours after the call is kept,
    and its timestamp is not below [now + 24h]. *)
Lemma C3_hour_at_the_horizon_is_kept :
  match snd (fetch_weather_summary (world_of one_day_ahead no_feed)
               (lit "Jaipur") 5 true) with
  | Ok summary =>
      match hourly_outlook summary with
      | Some [e] =>
          parse_timestamp (world_of one_day_ahead no_feed) (Hourly.time e)
          = Ok (noon + Dt.hours 24) /\
          ~ (noon + Dt.hours 24 < utcnow (world_of one_day_ahead no_feed) + Dt.hours 24)
      | _ => False
      end
  | Raise _ => False
  end.
Proof. vm_compute. split; [reflexivity | intros H; discriminate H]. Qed.

(** C3, amended.  Every entry of [hourly_outlook] has a timestamp [t],
    normalised to UTC (a naive one read as UTC), with
    [now <= t <= now + 24h], and the entries are in the upstream order. *)
Theorem C3_hourly_outlook_window w location days t summary es :
  fetch_weather_summary w location days true = (t, Ok summary) ->
  hourly_outlook summary = Some es ->
  Forall (in_window w (utcnow w)) es /\
  exists payload upstream,
    forecast_is w location true payload /\
    hourly_times payload = Ok upstream /\
    subsequence (map Hourly.time es) upstream.
Proof.
  intros H Hes.
  apply fetch_weather_summary_ok in H
    as (_ & t1 & lat & lon & name & response & payload
        & Hres & Hget & Hst & Hjs & Hsum & _).
  apply summarize_ok in Hsum as (times & n & _ & _ & _ & Hhourly).
  destruct Hhourly as [[Hnone _] | (upstream & es' & _ & _ & Hup & Hsome & Hw & Hs)].
  - congruence.
  - rewrite Hes in Hsome. injection Hsome as <-.
    split; [exact Hw|].
    exists payload, upstream. split; [|split; assumption].
    exists t1, lat, lon, name, response. auto.
Qed.

Lemma C3_hourly_outlook_window_witness :
  Forall (in_window (world_of two_days no_feed) noon) [one_pm] /\
  exists payload upstream,
    forecast_is (world_of two_days no_feed) (lit "Jaipur") true payload /\
    hourly_times payload = Ok upstream /\
    subsequence (map Hourly.time [one_pm]) upstream.
Proof.
  apply (C3_hourly_outlook_window (world_of two_days no_feed) (lit "Jaipur") 5
           (jaipur_trace true)
           (jaipur_summary [first_day; second_day] (Some [one_pm]))
           [one_pm]);
    reflexivity.
Defined.

(** C4 as stated fails: with [days = -1] the call succeeds and the forecast
    has 0 entries, while [min(days, 2)] is -1. *)
Lemma C4_negative_days_length :
  daily_times two_days = Ok (VList [s "2025-01-01"; s "2025-01-02"]) /\
  match snd (fetch_weather_summary (world_of two_days no_feed)
               (lit "Jaipur") (-1) false) with
  | Ok summary =>
      Z.of_nat (List.length (daily_forecast summary)) <> Z.min (-1) 2
  | Raise _ => False
  end.
Proof. split; vm_compute; [reflexivity | discriminate]. Qed.

(** C4, amended.  For every successful call whose upstream daily time
    column is an array, [daily_forecast] has [max(0, min(days, n))] entries,
    [n] the length of that array, and their dates are the first entries of
    the array, in its order. *)
Theorem C4_daily_forecast_length w location days include_hourly t summary :
  fetch_weather_summary w location days include_hourly = (t, Ok summary) ->
  exists payload,
    forecast_is w location include_hourly payload /\
    forall times,
      daily_times payload = Ok (VList times) ->
      Z.of_nat (List.length (daily_forecast summary))
      = Z.max 0 (Z.min days (Z.of_nat (List.length times))) /\
      map Daily.date (daily_forecast summary)
      = firstn (List.length (daily_forecast summary)) times.
Proof.
  intros H.
  apply fetch_weather_summary_ok in H
    as (_ & t1 & lat & lon & name & response & payload
        & Hres & Hget & Hst & Hjs & Hsum & _).
  exists payload. split; [exists t1, lat, lon, name, response; auto|].
  intros times Htimes.
  apply summarize_ok in Hsum as (times' & n & Ht & Hn & Hdaily & _).
  rewrite Htimes in Ht. injection Ht as <-.
  cbn [Py.len] in Hn. injection Hn as <-.
  destruct (Hdaily times eq_refl) as [Hlen Hdates].
  rewrite Hlen at 1. rewrite Hdates, Hlen. split; [lia | reflexivity].
Qed.

Lemma C4_daily_forecast_length_witness :
  exists payload,
    forecast_is (world_of two_days no_feed) (lit "Jaipur") false payload /\
    forall times,
      daily_times payload = Ok (VList times) ->
      Z.of_nat (List.length [first_day])
      = Z.max 0 (Z.min 1 (Z.of_nat (List.length times))) /\
      map Daily.date [first_day] = firstn (List.length [first_day]) times.
Proof.
  apply (C4_daily_forecast_length (world_of two_days no_feed) (lit "Jaipur") 1
           false (jaipur_trace false) (jaipur_summary [first_day] None)).
  reflexivity.
Defined.

(** C7.  Resolving a location that is empty after trimming whitespace, the
    empty string included, fails with the error "location is required"
    before the geocoding query is issued: [fetch_weather_summary], the one
    caller of [_resolve_location], makes the check first, and no request at
    all is in the trace. *)
Theorem C7_blank_location_rejected w location days include_hourly :
  Str.strip location = [] ->
  fetch_weather_summary w location days include_hourly
  = ([], Raise location_is_required).
Proof.
  intros H. apply blank_strip in H. unfold fetch_weather_summary.
  rewrite H. reflexivity.
Qed.

Lemma C7_blank_location_rejected_witness :
  Str.strip (lit "  ") = [] /\
  fetch_weather_summary (world_of two_days no_feed) (lit "  ") 5 false
  = ([], Raise location_is_required).
Proof.
  split; [reflexivity|].
  apply (C7_blank_location_rejected (world_of two_days no_feed) (lit "  ") 5 false).
  reflexivity.
Defined.

(** C9.  Where a call succeeds for some number of days, the geocoding and
    forecast responses being what they are, the call with any [days <= 0]
    succeeds as well, with the same requests: its [daily_forecast] is empty
    and every other field is the same. *)
Theorem C9_nonpositive_days w loc d0 days include_hourly t s0 :
  fetch_weather_summary w loc d0 include_hourly = (t, Ok s0) ->
  days <= 0 ->
  exists summary,
    fetch_weather_summary w loc days include_hourly = (t, Ok summary) /\
    daily_forecast summary = [] /\
    location summary = location s0 /\
    latitude summary = latitude s0 /\
    longitude summary = longitude s0 /\
    current_conditions summary = current_conditions s0 /\
    source summary = open_meteo /\
    hourly_outlook summary = hourly_outlook s0.
Proof.
  intros H Hdays.
  apply fetch_weather_summary_ok in H
    as (Hb & t1 & lat & lon & name & response & payload
        & Hres & Hget & Hst & Hjs & Hsum & ->).
  pose proof (summarize_nonpositive_days _ _ _ _ _ _ _ _ _ Hsum Hdays) as Hsum'.
  rewrite (fetch_weather_summary_eq _ _ days _ _ _ _ _ _ _ Hb Hres Hget Hst Hjs).
  rewrite Hsum'. eexists. split; [reflexivity|]. cbn.
  repeat split.
  unfold summarize in Hsum. do 9 step Hsum. step Hsum as has_hourly Ehas.
  destruct has_hourly.
  - do 4 step Hsum. injection Hsum as <-. reflexivity.
  - injection Hsum as <-. reflexivity.
Qed.

Lemma C9_nonpositive_days_witness :
  exists summary,
    fetch_weather_summary (world_of two_days no_feed) (lit "Jaipur") (-3) false
    = (jaipur_trace false, Ok summary) /\
    daily_forecast summary = [] /\
    location summary = lit "Jaipur, Rajasthan, India" /\
    latitude summary = jaipur_lat /\
    longitude summary = jaipur_lon /\
    current_conditions summary
    = current_conditions (jaipur_summary [first_day; second_day] None) /\
    source summary = open_meteo /\
    hourly_outlook summary = None.
Proof.
  apply (C9_nonpositive_days (world_of two_days no_feed) (lit "Jaipur") 5 (-3)
           false (jaipur_trace false)
           (jaipur_summary [first_day; second_day] None)).
  - reflexivity.
  - lia.
Defined.

(** C10.  The returned summary has the key [hourly_outlook] exactly when
    [include_hourly] is set and the forecast payload has the key "hourly";
    and an attached outlook can be the empty list: a call whose only
    upstream hour is past returns one. *)
Theorem C10_hourly_outlook_attached w location days include_hourly t summary :
  fetch_weather_summary w location days include_hourly = (t, Ok summary) ->
  (exists payload,
     forecast_is w location include_hourly payload /\
     (hourly_outlook summary <> None <->
      include_hourly = true /\ Py.contains payload (lit "hourly") = Ok true))
  /\
  fetch_weather_summary (world_of one_hour_ago no_feed) (lit "Jaipur") 5 true
  = (jaipur_trace true,
     Ok {| location := lit "Jaipur, Rajasthan, India";
           latitude := jaipur_lat;
           longitude := jaipur_lon;
           current_conditions := no_conditions;
           daily_forecast := [];
           source := open_meteo;
           hourly_outlook := Some [] |}).
Proof.
  intros H. split; [|reflexivity].
  apply fetch_weather_summary_ok in H
    as (_ & t1 & lat & lon & name & response & payload
        & Hres & Hget & Hst & Hjs & Hsum & _).
  exists payload. split; [exists t1, lat, lon, name, response; auto|].
  apply summarize_ok in Hsum as (times & n & _ & _ & _ & Hhourly).
  destruct Hhourly as [[Hnone Hno] | (upstream & es & Hinc & Hin & _ & Hsome & _)].
  - rewrite Hnone. split; [congruence|].
    intros [-> Hin]. rewrite Hin in Hno. discriminate.
  - rewrite Hsome. split; [auto | discriminate].
Qed.

Lemma C10_hourly_outlook_attached_witness :
  (exists payload,
     forecast_is (world_of dates_only no_feed) (lit "Jaipur") true payload /\
     (hourly_outlook
        {| location := lit "Jaipur, Rajasthan, India";
           latitude := jaipur_lat;
           longitude := jaipur_lon;
           current_conditions := no_conditions;
           daily_forecast := [];
           source := open_meteo;
           hourly_outlook := None |} <> None <->
      true = true /\ Py.contains payload (lit "hourly") = Ok true))
  /\
  fetch_weather_summary (world_of one_hour_ago no_feed) (lit "Jaipur") 5 true
  = (jaipur_trace true,
     Ok {| location := lit "Jaipur, Rajasthan, India";
           latitude := jaipur_lat;
           longitude := jaipur_lon;
           current_conditions := no_conditions;
           daily_forecast := [];
           source := open_meteo;
           hourly_outlook := Some [] |}).
Proof.
  apply (C10_hourly_outlook_attached (world_of dates_only no_feed) (lit "Jaipur")
           0 true (jaipur_trace true)).
  reflexivity.
Defined.

(** ** [textwrap.shorten]: the width is respected *)

Module TextwrapFacts.
Import Textwrap Wrapping.
























Section Loop.

Variable width : positive.
Variable text : str.
Hypothesis wide : 5 <= Z.pos width.





End Loop.


(** With room for the placeholder, [shorten] returns. *)
Lemma shorten_returns w text width :
  5 <= width -> exists r, shorten w text width = Ok r.
Proof.
  intros H. unfold shorten, _wrap_chunks.
  replace (width <=? 0) with false by (symmetry; apply Z.leb_gt; lia).
  change (Str.len (Str.lstrip placeholder)) with 5.
  replace (5 >? width) with false
    by (symmetry; rewrite Z.gtb_ltb; apply Z.ltb_ge; lia).
  eexists. reflexivity.
Qed.

End TextwrapFacts.

(** ** Claims on [fetch_safety_brief] *)

Import TextwrapFacts.


Lemma headline_of_ok w item o :
  headline_of w item = Ok o ->
  match o with
  | Some h => qualifies item = true /\ made_from w item h
  | None => qualifies item = false
  end.
Proof.
  unfold headline_of, qualifies, made_from, snippet_of, collapsed.
  intros H. step H as snippet Es.
  destruct (stripped_text item (lit "title")) as [|c1 t1];
    [injection H as <-; reflexivity|].
  destruct (stripped_text item (lit "link")) as [|c2 l2];
    injection H as <-; [reflexivity|].
  cbn. auto.
Qed.

Lemma collect_headlines_ok w items :
  forall hs,
    collect_headlines w items = Ok hs ->
    Forall2 (made_from w) (filter qualifies items) hs.
Proof.
  induction items as [|item items IH]; intros hs; cbn [collect_headlines filter].
  - intros [= <-]. constructor.
  - intros H. step H as o Eo. step H as rest Er. injection H as <-.
    apply headline_of_ok in Eo. destruct o as [h|].
    + destruct Eo as [-> Hm]. constructor; auto.
    + rewrite Eo. auto.
Qed.

Lemma collect_headlines_returns w items :
  exists hs, collect_headlines w items = Ok hs.
Proof.
  induction items as [|item items [hs IH]]; cbn [collect_headlines].
  - eexists. reflexivity.
  - unfold headline_of, snippet_of.
    destruct (shorten_returns w
                (Str.replace
                   (Str.replace (stripped_text item (lit "description"))
                      (lit "<br>") (lit " "))
                   Textwrap.newline (lit " ")) 240 ltac:(lia)) as [r ->].
    cbn [rbind].
    destruct (stripped_text item (lit "title")); [|destruct (stripped_text item (lit "link"))];
      cbn [rbind]; rewrite IH; cbn [rbind]; eexists; reflexivity.
Qed.

Lemma fetch_safety_brief_eq w location m language response tree :
  blank location = false ->
  http_get w (news_request location language) = Ok response ->
  raise_for_status response = Ok tt ->
  xml_fromstring w (text response) = Ok tree ->
  exists hs,
    collect_headlines w
      (Py.slice_to (ET.findall_descendants tree (lit "item")) m) = Ok hs /\
    fetch_safety_brief w location m language
    = ([Requested (news_request location language)],
       match hs with
       | [] => Raise (no_headlines location)
       | _ :: _ =>
           Ok {| Safety.location := location;
                 Safety.headlines := hs;
                 Safety.source := google_news |}
       end).
Proof.
  intros Hb Hget Hst Hxml.
  destruct (collect_headlines_returns w
              (Py.slice_to (ET.findall_descendants tree (lit "item")) m))
    as [hs Hhs].
  exists hs. split; [exact Hhs|].
  unfold fetch_safety_brief. rewrite Hb.
  fold (news_request location language).
  assert (parse_headlines w (text response) m = Ok hs) as Hparse.
  { unfold parse_headlines. rewrite Hxml. exact Hhs. }
  unfold requests_get. cbn [bind]. rewrite Hget.
  cbn [bind lift]. rewrite Hst. cbn [bind lift]. rewrite Hparse.
  cbn [bind try_except app]. destruct hs; reflexivity.
Qed.

Lemma fetch_safety_brief_ok w location m language t brief :
  fetch_safety_brief w location m language = (t, Ok brief) ->
  exists tree,
    feed_is w location language tree /\
    collect_headlines w
      (Py.slice_to (ET.findall_descendants tree (lit "item")) m)
    = Ok (Safety.headlines brief) /\
    Safety.headlines brief <> [].
Proof.
  intros H. pose proof H as H0. unfold fetch_safety_brief in H.
  destruct (blank location) eqn:Hb; [discriminate|].
  fold (news_request location language) in H.
  apply bind_ok in H as (t1 & response & t2 & Hget & H & ->).
  unfold requests_get in Hget. injection Hget as <- Hget.
  apply bind_ok in H as (t3 & [] & t4 & Hst & H & ->).
  apply lift_ok in Hst as [Hst ->].
  destruct (xml_fromstring w (text response)) as [tree|exc] eqn:Hxml.
  - destruct (fetch_safety_brief_eq w location m language response tree
                Hb Hget Hst Hxml) as (hs & Hhs & Heq).
    rewrite Heq in H0. exists tree. split; [exists response; auto|].
    destruct hs; [discriminate|]. injection H0 as _ <-. cbn.
    split; [exact Hhs | discriminate].
  - exfalso. unfold parse_headlines in H. rewrite Hxml in H.
    cbn [rbind lift try_except bind log_warning raise] in H. discriminate.
Qed.

(** C1 as stated fails: of three items the first has no title; with
    [max_items = 2] the first two qualifying items of the feed are the
    second and the third, and the call returns the second alone. *)
Lemma C1_dropped_item_counts :
  first_qualifying (rss [untitled; strike; flood]) 2 = [strike; flood] /\
  snd (fetch_safety_brief
         (world_of two_days (Ok (rss [untitled; strike; flood])))
         (lit "Jaipur") 2 (lit "en-US"))
  = Ok (jaipur_brief [headline "Strike" "http://news.example/b"]).
Proof. split; vm_compute; reflexivity. Qed.

(** C1, amended.  The call goes through the item elements that the slice
    [[:max_items]] keeps of the feed, in document order (the first [m] when
    [m >= 0]).  An item without a non-empty title or link is dropped after
    it has been counted: the headlines are those of the qualifying items
    among the sliced ones, in their order. *)
Theorem C1_headlines_among_sliced_items w location m language t brief :
  fetch_safety_brief w location m language = (t, Ok brief) ->
  exists tree,
    feed_is w location language tree /\
    Forall2 (made_from w)
      (filter qualifies
         (Py.slice_to (ET.findall_descendants tree (lit "item")) m))
      (Safety.headlines brief) /\
    (0 <= m ->
     Py.slice_to (ET.findall_descendants tree (lit "item")) m
     = firstn (Z.to_nat m) (ET.findall_descendants tree (lit "item"))).
Proof.
  intros H. apply fetch_safety_brief_ok in H as (tree & Hfeed & Hhs & _).
  exists tree. split; [exact Hfeed|]. split.
  - apply collect_headlines_ok. exact Hhs.
  - intros Hm. unfold Py.slice_to.
    destruct (Z.leb_spec 0 m); [reflexivity | lia].
Qed.

Lemma C1_headlines_among_sliced_items_witness :
  exists tree,
    feed_is (world_of two_days (Ok (rss [untitled; strike; flood])))
      (lit "Jaipur") (lit "en-US") tree /\
    Forall2 (made_from (world_of two_days (Ok (rss [untitled; strike; flood]))))
      (filter qualifies
         (Py.slice_to (ET.findall_descendants tree (lit "item")) 2))
      [headline "Strike" "http://news.example/b"] /\
    (0 <= 2 ->
     Py.slice_to (ET.findall_descendants tree (lit "item")) 2
     = firstn (Z.to_nat 2) (ET.findall_descendants tree (lit "item"))).
Proof.
  apply (C1_headlines_among_sliced_items
           (world_of two_days (Ok (rss [untitled; strike; flood])))
           (lit "Jaipur") 2 (lit "en-US")
           [Requested (news_request (lit "Jaipur") (lit "en-US"))]
           (jaipur_brief [headline "Strike" "http://news.example/b"])).
  reflexivity.
Defined.

(** C5 as stated fails: with [max_items = -1] the slice drops the last item
    only, and a feed of two items gives a brief of one headline, which is
    not between 1 and -1. *)
Lemma C5_negative_max_items :
  snd (fetch_safety_brief (world_of two_days (Ok (rss [strike; flood])))
         (lit "Jaipur") (-1) (lit "en-US"))
  = Ok (jaipur_brief [headline "Strike" "http://news.example/b"]) /\
  ~ (1 <= Z.of_nat (List.length [headline "Strike" "http://news.example/b"]) <= -1).
Proof. split; [vm_compute; reflexivity | simpl; lia]. Qed.

(** C5, amended.  For every input the call either raises or returns a
    brief whose headlines are not empty, each with a non-empty title and
    link, in the order of the feed, and at most [max_items] of them when
    [max_items >= 0].  When the feed is received and parsed and none of the
    sliced items qualifies, what is raised is the error that no headline
    was found. *)
Theorem C5_brief_never_empty w location m language :
  match snd (fetch_safety_brief w location m language) with
  | Ok brief =>
      Safety.headlines brief <> [] /\
      Forall (fun h => Safety.title h <> [] /\ Safety.link h <> [])
             (Safety.headlines brief) /\
      (0 <= m -> Z.of_nat (List.length (Safety.headlines brief)) <= m) /\
      exists tree,
        feed_is w location language tree /\
        Forall2 (made_from w)
          (filter qualifies
             (Py.slice_to (ET.findall_descendants tree (lit "item")) m))
          (Safety.headlines brief)
  | Raise exc =>
      forall tree,
        blank location = false ->
        feed_is w location language tree ->
        filter qualifies
          (Py.slice_to (ET.findall_descendants tree (lit "item")) m) = [] /\
        exc = no_headlines location
  end.
Proof.
  destruct (fetch_safety_brief w location m language) as [t [brief|exc]] eqn:H;
    cbn [snd].
  - apply fetch_safety_brief_ok in H as (tree & Hfeed & Hhs & Hne).
    apply collect_headlines_ok in Hhs.
    split; [exact Hne|]. split; [|split].
    + revert Hhs. generalize (Safety.headlines brief).
      generalize (Py.slice_to (ET.findall_descendants tree (lit "item")) m).
      intros items hs Hall.
      assert (Forall (fun i => qualifies i = true) (filter qualifies items)) as Hq.
      { apply Forall_forall. intros i Hi. apply filter_In in Hi. tauto. }
      induction Hall as [|item h items' hs' Hmade _ IH]; constructor.
      * inversion Hq as [|? ? Hqi _]; subst.
        destruct Hmade as (Ht & Hl & _). rewrite Ht, Hl.
        unfold qualifies in Hqi.
        destruct (stripped_text item (lit "title")); [discriminate|].
        destruct (stripped_text item (lit "link")); [discriminate|].
        split; discriminate.
      * apply IH. inversion Hq; assumption.
    + intros Hm. apply Forall2_length in Hhs. rewrite <- Hhs.
      pose proof (filter_length_le qualifies
                    (Py.slice_to (ET.findall_descendants tree (lit "item")) m)).
      unfold Py.slice_to in *. destruct (Z.leb_spec 0 m); [|lia].
      rewrite length_firstn in *. lia.
    + exists tree. auto.
  - intros tree Hb (response & Hget & Hst & Hxml).
    destruct (fetch_safety_brief_eq w location m language response tree
                Hb Hget Hst Hxml) as (hs & Hhs & Heq).
    rewrite Heq in H. destruct hs; [|discriminate].
    injection H as _ <-. apply collect_headlines_ok in Hhs.
    inversion Hhs. auto.
Qed.



(** C8.  When the location is not blank, the feed is received and its body
    does not parse, the call logs one warning, which carries the location
    and the parse error, and then raises that same error. *)
Theorem C8_parse_failure_logged_then_raised w location m language response exc :
  blank location = false ->
  http_get w (news_request location language) = Ok response ->
  raise_for_status response = Ok tt ->
  xml_fromstring w (text response) = Raise exc ->
  fetch_safety_brief w location m language
  = ([Requested (news_request location language);
      LoggedWarning failed_to_parse location exc],
     Raise exc).
Proof.
  intros Hb Hget Hst Hxml. unfold fetch_safety_brief. rewrite Hb.
  fold (news_request location language).
  unfold requests_get, parse_headlines. cbn [bind]. rewrite Hget.
  cbn [bind lift]. rewrite Hst. cbn [bind lift]. rewrite Hxml.
  reflexivity.
Qed.

Lemma C8_parse_failure_logged_then_raised_witness :
  fetch_safety_brief (world_of two_days no_feed) (lit "Jaipur") 4 (lit "en-US")
  = ([Requested (news_request (lit "Jaipur") (lit "en-US"));
      LoggedWarning failed_to_parse (lit "Jaipur")
        (ParseError (lit "syntax error"))],
     Raise (ParseError (lit "syntax error"))).
Proof.
  apply (C8_parse_failure_logged_then_raised (world_of two_days no_feed)
           (lit "Jaipur") 4 (lit "en-US") (ok_text (lit "<rss/>"))
           (ParseError (lit "syntax error")));
    reflexivity.
Defined.

(** * Further properties of the tools *)

(** ** Vocabulary *)

(** A world in which every request is answered with the HTTP status
    [code] and an empty body. *)
Definition answering (code : Z) (w : world) : world :=
  {| http_get := fun _ =>
       Ok {| status_code := code; json := Raise JSONDecodeError; text := [] |};
     xml_fromstring := xml_fromstring w;
     fromisoformat := fromisoformat w;
     utcnow := utcnow w;
     wordsep_split := wordsep_split w |}.

(** A world whose forecast endpoint alone answers with the status [code]. *)
Definition forecast_answering (code : Z) (w : world) : world :=
  {| http_get := fun r =>
       match r with
       | ForecastRequest _ _ _ =>
           Ok {| status_code := code; json := Raise JSONDecodeError; text := [] |}
       | _ => http_get w r
       end;
     xml_fromstring := xml_fromstring w;
     fromisoformat := fromisoformat w;
     utcnow := utcnow w;
     wordsep_split := wordsep_split w |}.

(** [d.get(key)] on the pairs of a dict. *)
Definition lookup (kv : list (str * value)) (key : string) : value :=
  match Py.assoc (lit key) kv with
  | Some v => v
  | None => VNone
  end.

(** The timestamp of [time_str] parses and lies in the closed window of 24
    hours from [now]. *)
Definition in_window_b (w : world) (now : Z) (time_str : value) : bool :=
  match parse_timestamp w time_str with
  | Ok ts => (now <=? ts) && (ts <=? now + Dt.hours 24)
  | Raise _ => false
  end.

(** [a] is not later than [b], as far as both parse. *)
Definition not_later (w : world) (a b : value) : Prop :=
  forall ta tb,
    parse_timestamp w a = Ok ta -> parse_timestamp w b = Ok tb -> ta <= tb.

(** The timestamp of [time_str] parses and is before [now]. *)
Definition past (w : world) (now : Z) (time_str : value) : Prop :=
  exists ts, parse_timestamp w time_str = Ok ts /\ ts < now.

(** The columns of the daily block agree at [idx] with the entry [e]. *)
Definition daily_row (daily : value) (idx : Z) (e : Daily.entry) : Prop :=
  field_at daily (lit "time") (VList []) idx = Ok (Daily.date e) /\
  field_at daily (lit "temperature_2m_max") (VList [VNone]) idx
  = Ok (Daily.max_temp_c (Daily.summary_of e)) /\
  field_at daily (lit "temperature_2m_min") (VList [VNone]) idx
  = Ok (Daily.min_temp_c (Daily.summary_of e)) /\
  field_at daily (lit "precipitation_probability_max") (VList [VNone]) idx
  = Ok (Daily.precip_probability (Daily.summary_of e)) /\
  field_at daily (lit "precipitation_sum") (VList [VNone]) idx
  = Ok (Daily.precipitation_total_mm (Daily.summary_of e)) /\
  field_at daily (lit "uv_index_max") (VList [VNone]) idx
  = Ok (Daily.uv_index_max (Daily.summary_of e)) /\
  field_at daily (lit "wind_speed_10m_max") (VList [VNone]) idx
  = Ok (Daily.wind_speed_max_kmh (Daily.summary_of e)) /\
  field_at daily (lit "sunrise") (VList [VNone]) idx = Ok (Daily.sunrise e) /\
  field_at daily (lit "sunset") (VList [VNone]) idx = Ok (Daily.sunset e).

(** The columns of the hourly block agree at [idx] with the entry [e]. *)
Definition hourly_row (hourly_data : value) (idx : Z) (e : Hourly.entry)
  : Prop :=
  field_at hourly_data (lit "temperature_2m") (VList [VNone]) idx
  = Ok (Hourly.temperature_c e) /\
  field_at hourly_data (lit "precipitation_probability") (VList [VNone]) idx
  = Ok (Hourly.precip_probability e) /\
  field_at hourly_data (lit "relativehumidity_2m") (VList [VNone]) idx
  = Ok (Hourly.relative_humidity e) /\
  field_at hourly_data (lit "weathercode") (VList [VNone]) idx
  = Ok (Hourly.weather_code e).

(** ['-'] turned into [':']. *)
Definition colon_for_hyphen (c : Str.char) : Str.char :=
  if (c =? Textwrap.hyphen)%N then 58%N else c.

(** ** [_resolve_location] *)

Lemma resolve_location_trace w location :
  fst (_resolve_location w location) = [Requested (GeocodeRequest location)].
Proof.
  unfold _resolve_location, requests_get. cbn [bind].
  destruct (http_get w (GeocodeRequest location)) as [response|e];
    [|reflexivity].
  cbn [bind lift]. destruct (raise_for_status response) as [[]|e];
    [|reflexivity].
  cbn [bind lift]. destruct (json response) as [payload|e]; [|reflexivity].
  cbn [bind lift fst app]. reflexivity.
Qed.

(** X1.  Whatever the world answers, [_resolve_location] issues exactly
    one request, the geocoding query for the location as given: it neither
    retries nor logs. *)
Theorem X1_resolve_location_one_request w location :
  fst (_resolve_location w location) = [Requested (GeocodeRequest location)].
Proof. apply resolve_location_trace. Qed.

(** X2.  When the geocoder answers without a usable "results" entry (the
    key absent, null or an empty list), [_resolve_location] raises the error
    that the location cannot be geocoded, which names the location. *)
Theorem X2_resolve_location_no_result w location response payload found :
  http_get w (GeocodeRequest location) = Ok response ->
  raise_for_status response = Ok tt ->
  json response = Ok payload ->
  Py.get payload (lit "results") VNone = Ok found ->
  Py.truthy found = false ->
  _resolve_location w location
  = ([Requested (GeocodeRequest location)], Raise (unable_to_geocode location)).
Proof.
  intros Hget Hst Hjs Hfound Htruthy.
  unfold _resolve_location, requests_get. cbn [bind]. rewrite Hget.
  cbn [bind lift]. rewrite Hst. cbn [bind lift]. rewrite Hjs.
  cbn [bind lift]. rewrite Hfound. cbn [rbind].
  unfold Py.or. rewrite Htruthy. reflexivity.
Qed.

Lemma X2_resolve_location_no_result_witness :
  _resolve_location (Sample.nowhere (Sample.world_of Sample.two_days Sample.no_feed))
    (lit "Atlantis")
  = ([Requested (GeocodeRequest (lit "Atlantis"))],
     Raise (unable_to_geocode (lit "Atlantis"))).
Proof.
  apply (X2_resolve_location_no_result
           (Sample.nowhere (Sample.world_of Sample.two_days Sample.no_feed))
           (lit "Atlantis") (Sample.ok_json (VDict [])) (VDict []) VNone);
    reflexivity.
Defined.

(** X3.  When the geocoder answers with a status from 400 to 599,
    [_resolve_location] raises the HTTP error of that status and does not
    read the body. *)
Theorem X3_resolve_location_http_error w location response :
  http_get w (GeocodeRequest location) = Ok response ->
  400 <= status_code response < 600 ->
  _resolve_location w location
  = ([Requested (GeocodeRequest location)],
     Raise (HTTPError (status_code response))).
Proof.
  intros Hget Hcode.
  unfold _resolve_location, requests_get. cbn [bind]. rewrite Hget.
  cbn [bind lift]. unfold raise_for_status.
  replace ((400 <=? status_code response) && (status_code response <? 600))
    with true; [reflexivity|].
  symmetry. apply andb_true_intro. split; [apply Z.leb_le | apply Z.ltb_lt]; lia.
Qed.

Lemma X3_resolve_location_http_error_witness :
  _resolve_location (answering 503 (Sample.world_of Sample.two_days Sample.no_feed))
    (lit "Jaipur")
  = ([Requested (GeocodeRequest (lit "Jaipur"))], Raise (HTTPError 503)).
Proof.
  apply (X3_resolve_location_http_error
           (answering 503 (Sample.world_of Sample.two_days Sample.no_feed))
           (lit "Jaipur")
           {| status_code := 503; json := Raise JSONDecodeError; text := [] |}).
  - reflexivity.
  - simpl. lia.
Defined.

Lemma kept_parts_ok parts :
  forall kept,
    kept_parts parts = Ok kept -> map VStr kept = filter Py.truthy parts.
Proof.
  induction parts as [|p parts IH]; intros kept; cbn [kept_parts filter].
  - intros [= <-]. reflexivity.
  - destruct (Py.truthy p) eqn:Et; [|apply IH].
    destruct p; try discriminate.
    intros H. step H as rest Er. injection H as <-.
    cbn [map]. f_equal. apply IH. exact Er.
Qed.

(** X4.  What [_resolve_location] returns comes from the first result of
    the geocoder: its "latitude" and "longitude", and a display name that
    joins with ", " exactly those of its "name", "admin1" and "country"
    that are present and not empty, in that order. *)
Theorem X4_resolve_location_result w location t lat lon name :
  _resolve_location w location = (t, Ok (lat, lon, name)) ->
  exists response payload results top_hit n a c kept,
    http_get w (GeocodeRequest location) = Ok response /\
    json response = Ok payload /\
    Py.get payload (lit "results") VNone = Ok results /\
    Py.getitem results 0 = Ok top_hit /\
    Py.getkey top_hit (lit "latitude") = Ok lat /\
    Py.getkey top_hit (lit "longitude") = Ok lon /\
    Py.get top_hit (lit "name") VNone = Ok n /\
    Py.get top_hit (lit "admin1") VNone = Ok a /\
    Py.get top_hit (lit "country") VNone = Ok c /\
    map VStr kept = filter Py.truthy [n; a; c] /\
    name = Str.join (lit ", ") kept.
Proof.
  unfold _resolve_location. intros H.
  apply bind_ok in H as (t1 & response & t2 & Hget & H & ->).
  unfold requests_get in Hget. injection Hget as <- Hget.
  apply bind_ok in H as (t3 & [] & t4 & Hst & H & ->).
  apply bind_ok in H as (t5 & payload & t6 & Hjs & H & ->).
  apply lift_ok in Hjs as [Hjs ->].
  apply lift_ok in H as [H ->].
  step H as found Efound.
  unfold Py.or in H. destruct (Py.truthy found) eqn:Etruthy;
    [|cbn in H; discriminate].
  rewrite Etruthy in H. cbn [negb] in H.
  step H as top_hit Etop. step H as n En. step H as a Ea. step H as c Ec.
  step H as kept Ekept. step H as lat' Elat. step H as lon' Elon.
  injection H as <- <- <-.
  exists response, payload, found, top_hit, n, a, c, kept.
  apply kept_parts_ok in Ekept. auto 12.
Qed.

Lemma X4_resolve_location_result_witness :
  exists response payload results top_hit n a c kept,
    http_get (Sample.world_of Sample.two_days Sample.no_feed)
      (GeocodeRequest (lit "Jaipur")) = Ok response /\
    json response = Ok payload /\
    Py.get payload (lit "results") VNone = Ok results /\
    Py.getitem results 0 = Ok top_hit /\
    Py.getkey top_hit (lit "latitude") = Ok Sample.jaipur_lat /\
    Py.getkey top_hit (lit "longitude") = Ok Sample.jaipur_lon /\
    Py.get top_hit (lit "name") VNone = Ok n /\
    Py.get top_hit (lit "admin1") VNone = Ok a /\
    Py.get top_hit (lit "country") VNone = Ok c /\
    map VStr kept = filter Py.truthy [n; a; c] /\
    lit "Jaipur, Rajasthan, India" = Str.join (lit ", ") kept.
Proof.
  apply (X4_resolve_location_result
           (Sample.world_of Sample.two_days Sample.no_feed) (lit "Jaipur")
           [Requested (GeocodeRequest (lit "Jaipur"))]).
  reflexivity.
Defined.

(** ** [fetch_weather_summary] *)

(** X5.  A failure of the geocoding step is the failure of the call: the
    same exception is raised, and no forecast is requested. *)
Theorem X5_geocoding_failure_propagates w location days include_hourly t exc :
  blank location = false ->
  _resolve_location w location = (t, Raise exc) ->
  fetch_weather_summary w location days include_hourly = (t, Raise exc).
Proof.
  intros Hb Hres. unfold fetch_weather_summary. rewrite Hb, Hres. reflexivity.
Qed.

Lemma X5_geocoding_failure_propagates_witness :
  fetch_weather_summary
    (Sample.nowhere (Sample.world_of Sample.two_days Sample.no_feed))
    (lit "Atlantis") 5 true
  = ([Requested (GeocodeRequest (lit "Atlantis"))],
     Raise (unable_to_geocode (lit "Atlantis"))).
Proof.
  apply (X5_geocoding_failure_propagates
           (Sample.nowhere (Sample.world_of Sample.two_days Sample.no_feed))
           (lit "Atlantis") 5 true); reflexivity.
Defined.

Lemma summarize_fields w lat lon name days include_hourly payload summary :
  summarize w lat lon name days include_hourly payload = Ok summary ->
  location summary = name /\ latitude summary = lat /\
  longitude summary = lon /\ source summary = open_meteo.
Proof.
  unfold summarize. intros H. do 9 step H. step H as has_hourly Ehas.
  destruct has_hourly.
  - do 4 step H. injection H as <-. cbn. auto.
  - injection H as <-. cbn. auto.
Qed.

(** X6.  A call that returns has issued exactly two requests, the
    geocoding query and then the forecast query, the latter for the
    coordinates the geocoder gave and with the hourly columns asked for
    exactly when [include_hourly] is set; the summary reports those same
    coordinates, the display name of the geocoder and the fixed source. *)
Theorem X6_summary_reports_what_was_queried w loc days include_hourly t summary :
  fetch_weather_summary w loc days include_hourly = (t, Ok summary) ->
  _resolve_location w loc
  = ([Requested (GeocodeRequest loc)],
     Ok (latitude summary, longitude summary, location summary)) /\
  t = [ Requested (GeocodeRequest loc);
        Requested (ForecastRequest (latitude summary) (longitude summary)
                     include_hourly) ] /\
  source summary = open_meteo.
Proof.
  intros H.
  apply fetch_weather_summary_ok in H
    as (_ & t1 & lat & lon & name & response & payload
        & Hres & _ & _ & _ & Hsum & ->).
  apply summarize_fields in Hsum as (-> & -> & -> & ->).
  pose proof (resolve_location_trace w loc) as Ht. rewrite Hres in Ht.
  cbn [fst] in Ht. subst t1. auto.
Qed.

Lemma X6_summary_reports_what_was_queried_witness :
  _resolve_location (Sample.world_of Sample.two_days Sample.no_feed) (lit "Jaipur")
  = ([Requested (GeocodeRequest (lit "Jaipur"))],
     Ok (Sample.jaipur_lat, Sample.jaipur_lon, lit "Jaipur, Rajasthan, India")) /\
  Sample.jaipur_trace true
  = [ Requested (GeocodeRequest (lit "Jaipur"));
      Requested (ForecastRequest Sample.jaipur_lat Sample.jaipur_lon true) ] /\
  open_meteo = open_meteo.
Proof.
  apply (X6_summary_reports_what_was_queried
           (Sample.world_of Sample.two_days Sample.no_feed) (lit "Jaipur") 5 true
           (Sample.jaipur_trace true)
           (Sample.jaipur_summary [Sample.first_day; Sample.second_day]
              (Some [Sample.one_pm]))).
  reflexivity.
Defined.

(** X7.  Whatever the world answers, [fetch_weather_summary] issues no
    request for a blank location, and otherwise the geocoding query alone
    or the geocoding query followed by one forecast query; it logs
    nothing. *)
Theorem X7_weather_requests w loc days include_hourly :
  (Str.strip loc = [] <->
   fst (fetch_weather_summary w loc days include_hourly) = []) /\
  (fst (fetch_weather_summary w loc days include_hourly) = [] \/
   fst (fetch_weather_summary w loc days include_hourly)
   = [Requested (GeocodeRequest loc)] \/
   exists lat lon,
     fst (fetch_weather_summary w loc days include_hourly)
     = [ Requested (GeocodeRequest loc);
         Requested (ForecastRequest lat lon include_hourly) ]).
Proof.
  rewrite <- blank_strip. unfold fetch_weather_summary.
  destruct (blank loc); [split; [split; reflexivity | left; reflexivity]|].
  pose proof (resolve_location_trace w loc) as Ht.
  destruct (_resolve_location w loc) as [t1 [[[lat lon] name]|e]];
    cbn [fst] in Ht; subst t1.
  - assert (fst (bind ([Requested (GeocodeRequest loc)], Ok (lat, lon, name))
                   (fun resolved =>
                      let '(lat, lon, resolved_name) := resolved in
                      bind (requests_get w (ForecastRequest lat lon include_hourly))
                        (fun response =>
                           bind (lift (raise_for_status response))
                             (fun _ =>
                                bind (lift (json response))
                                  (fun payload =>
                                     lift (summarize w lat lon resolved_name days
                                             include_hourly payload))))))
            = [ Requested (GeocodeRequest loc);
                Requested (ForecastRequest lat lon include_hourly) ]) as Heq.
    { unfold requests_get. cbn [bind].
      destruct (http_get w (ForecastRequest lat lon include_hourly))
        as [response|e]; [|reflexivity].
      cbn [bind lift]. destruct (raise_for_status response) as [[]|e];
        [|reflexivity].
      cbn [bind lift]. destruct (json response) as [payload|e]; reflexivity. }
    split.
    + split; [discriminate|]. rewrite Heq. discriminate.
    + right. right. exists lat, lon. exact Heq.
  - cbn. split; [split; discriminate|]. right. left. reflexivity.
Qed.

(** X8.  When the forecast endpoint answers with a status from 400 to 599,
    the call raises the HTTP error of that status after its two requests;
    no summary, not even a partial one, is returned. *)
Theorem X8_forecast_http_error w loc days include_hourly t lat lon name response :
  blank loc = false ->
  _resolve_location w loc = (t, Ok (lat, lon, name)) ->
  http_get w (ForecastRequest lat lon include_hourly) = Ok response ->
  400 <= status_code response < 600 ->
  fetch_weather_summary w loc days include_hourly
  = (t ++ [Requested (ForecastRequest lat lon include_hourly)],
     Raise (HTTPError (status_code response))).
Proof.
  intros Hb Hres Hget Hcode. unfold fetch_weather_summary.
  rewrite Hb, Hres. unfold requests_get. cbn [bind]. rewrite Hget.
  cbn [bind lift]. unfold raise_for_status.
  replace ((400 <=? status_code response) && (status_code response <? 600))
    with true; [rewrite app_nil_r; reflexivity|].
  symmetry. apply andb_true_intro. split; [apply Z.leb_le | apply Z.ltb_lt]; lia.
Qed.

Lemma X8_forecast_http_error_witness :
  fetch_weather_summary
    (forecast_answering 500 (Sample.world_of Sample.two_days Sample.no_feed))
    (lit "Jaipur") 5 false
  = ([Requested (GeocodeRequest (lit "Jaipur"))]
     ++ [Requested (ForecastRequest Sample.jaipur_lat Sample.jaipur_lon false)],
     Raise (HTTPError 500)).
Proof.
  apply (X8_forecast_http_error
           (forecast_answering 500 (Sample.world_of Sample.two_days Sample.no_feed))
           (lit "Jaipur") 5 false
           [Requested (GeocodeRequest (lit "Jaipur"))]
           Sample.jaipur_lat Sample.jaipur_lon (lit "Jaipur, Rajasthan, India")
           {| status_code := 500; json := Raise JSONDecodeError; text := [] |}).
  - reflexivity.
  - reflexivity.
  - reflexivity.
  - simpl. lia.
Defined.

Lemma summarize_current w lat lon name days include_hourly payload summary :
  summarize w lat lon name days include_hourly payload = Ok summary ->
  exists current_weather kv,
    Py.get payload (lit "current_weather") (VDict []) = Ok current_weather /\
    Py.or current_weather (VDict []) = VDict kv /\
    current_conditions summary
    = {| temperature_c := lookup kv "temperature";
         windspeed_kmh := lookup kv "windspeed";
         weather_code := lookup kv "weathercode";
         observation_time := lookup kv "time" |}.
Proof.
  unfold summarize. intros H.
  step H as current_weather Ecur. do 4 step H.
  step H as temperature Et1. step H as windspeed Et2.
  step H as weathercode Et3. step H as time Et4.
  step H as has_hourly Ehas.
  exists current_weather.
  destruct (Py.or current_weather (VDict [])) as [| | | | | |kv] eqn:Eor;
    try discriminate.
  exists kv. split; [exact Ecur|]. split; [reflexivity|].
  cbn [Py.get] in Et1, Et2, Et3, Et4.
  injection Et1 as <-. injection Et2 as <-. injection Et3 as <-.
  injection Et4 as <-.
  destruct has_hourly.
  - do 4 step H. injection H as <-. reflexivity.
  - injection H as <-. reflexivity.
Qed.

(** X9.  The four fields of [current_conditions] are always present in a
    returned summary: each is the value the "current_weather" object of the
    forecast has under "temperature", "windspeed", "weathercode" and "time",
    or null where the object lacks it; a forecast without that object, or
    with a null or empty one, gives four nulls. *)
Theorem X9_current_conditions w loc days include_hourly t summary :
  fetch_weather_summary w loc days include_hourly = (t, Ok summary) ->
  exists payload current_weather kv,
    forecast_is w loc include_hourly payload /\
    Py.get payload (lit "current_weather") (VDict []) = Ok current_weather /\
    Py.or current_weather (VDict []) = VDict kv /\
    (Py.truthy current_weather = false -> kv = []) /\
    current_conditions summary
    = {| temperature_c := lookup kv "temperature";
         windspeed_kmh := lookup kv "windspeed";
         weather_code := lookup kv "weathercode";
         observation_time := lookup kv "time" |}.
Proof.
  intros H.
  apply fetch_weather_summary_ok in H
    as (_ & t1 & lat & lon & name & response & payload
        & Hres & Hget & Hst & Hjs & Hsum & _).
  apply summarize_current in Hsum as (cw & kv & Hcw & Hor & Hcur).
  exists payload, cw, kv.
  split; [exists t1, lat, lon, name, response; auto|].
  split; [exact Hcw|]. split; [exact Hor|]. split; [|exact Hcur].
  intros Hf. unfold Py.or in Hor. rewrite Hf in Hor. congruence.
Qed.

Lemma X9_current_conditions_witness :
  exists payload current_weather kv,
    forecast_is (Sample.world_of Sample.dates_only Sample.no_feed) (lit "Jaipur")
      false payload /\
    Py.get payload (lit "current_weather") (VDict []) = Ok current_weather /\
    Py.or current_weather (VDict []) = VDict kv /\
    (Py.truthy current_weather = false -> kv = []) /\
    Sample.no_conditions
    = {| temperature_c := lookup kv "temperature";
         windspeed_kmh := lookup kv "windspeed";
         weather_code := lookup kv "weathercode";
         observation_time := lookup kv "time" |}.
Proof.
  apply (X9_current_conditions
           (Sample.world_of Sample.dates_only Sample.no_feed) (lit "Jaipur") 0
           false (Sample.jaipur_trace false)
           {| location := lit "Jaipur, Rajasthan, India";
              latitude := Sample.jaipur_lat;
              longitude := Sample.jaipur_lon;
              current_conditions := Sample.no_conditions;
              daily_forecast := [];
              source := open_meteo;
              hourly_outlook := None |}).
  reflexivity.
Defined.

Lemma daily_entry_at_row daily idx e :
  daily_entry_at daily idx = Ok e -> daily_row daily idx e.
Proof.
  unfold daily_entry_at, daily_row. intros H.
  step H as date E0. step H as hi E1. step H as lo E2. step H as pp E3.
  step H as ps E4. step H as uv E5. step H as wind E6.
  step H as rise E7. step H as set E8.
  injection H as <-. cbn. auto 10.
Qed.

Lemma mapM_nth {A B} (f : A -> result B) (l : list A) :
  forall bs i b,
    mapM f l = Ok bs -> nth_error bs i = Some b ->
    exists a, nth_error l i = Some a /\ f a = Ok b.
Proof.
  induction l as [|a l IH]; intros bs i b; cbn [mapM].
  - intros [= <-]. destruct i; discriminate.
  - intros H. step H as b0 Eb. step H as rest Er. injection H as <-.
    destruct i as [|i]; cbn [nth_error].
    + intros [= <-]. exists a. auto.
    + intros Hn. apply (IH rest i b Er Hn).
Qed.

Lemma nth_error_seq_eq n :
  forall a i k, nth_error (seq a n) i = Some k -> k = (a + i)%nat.
Proof.
  induction n as [|n IH]; intros a i k; cbn [seq].
  - destruct i; discriminate.
  - destruct i as [|i]; cbn [nth_error].
    + intros [= <-]. lia.
    + intros H. apply IH in H. lia.
Qed.

Lemma summarize_daily w lat lon name days include_hourly payload summary :
  summarize w lat lon name days include_hourly payload = Ok summary ->
  exists daily_data,
    Py.get payload (lit "daily") (VDict []) = Ok daily_data /\
    forall i e,
      nth_error (daily_forecast summary) i = Some e ->
      daily_row (Py.or daily_data (VDict [])) (Z.of_nat i) e.
Proof.
  unfold summarize. intros H.
  step H as current_weather Ecur. step H as daily_data Edaily.
  step H as times Etimes. step H as n Elen. step H as forecast Ebuild.
  do 4 step H. step H as has_hourly Ehas.
  exists daily_data. split; [exact Edaily|].
  assert (daily_forecast summary = forecast) as ->.
  { destruct has_hourly.
    - do 4 step H. injection H as <-. reflexivity.
    - injection H as <-. reflexivity. }
  intros i e Hn. unfold build_daily_forecast, Py.range in Ebuild.
  destruct (mapM_nth _ _ _ _ _ Ebuild Hn) as (a & Ha & Hf).
  apply daily_entry_at_row.
  rewrite nth_error_map in Ha.
  destruct (nth_error (seq 0 (Z.to_nat (Z.min days n))) i) as [k|] eqn:Ek;
    [|discriminate].
  injection Ha as <-.
  apply nth_error_seq_eq in Ek. cbn in Ek. subst k. exact Hf.
Qed.

(** X10.  In a returned summary the entry at position [i] of
    [daily_forecast] holds, for its date and each of its eight figures, the
    value at the same position [i] of the corresponding column of the
    forecast (or the null of the default when a column is absent and
    [i = 0]): the columns are read side by side. *)
Theorem X10_daily_entries_aligned w loc days include_hourly t summary :
  fetch_weather_summary w loc days include_hourly = (t, Ok summary) ->
  exists payload daily_data,
    forecast_is w loc include_hourly payload /\
    Py.get payload (lit "daily") (VDict []) = Ok daily_data /\
    forall i e,
      nth_error (daily_forecast summary) i = Some e ->
      daily_row (Py.or daily_data (VDict [])) (Z.of_nat i) e.
Proof.
  intros H.
  apply fetch_weather_summary_ok in H
    as (_ & t1 & lat & lon & name & response & payload
        & Hres & Hget & Hst & Hjs & Hsum & _).
  apply summarize_daily in Hsum as (daily_data & Hd & Hrows).
  exists payload, daily_data.
  split; [exists t1, lat, lon, name, response; auto|]. auto.
Qed.

Lemma X10_daily_entries_aligned_witness :
  exists payload daily_data,
    forecast_is (Sample.world_of Sample.two_days Sample.no_feed) (lit "Jaipur")
      false payload /\
    Py.get payload (lit "daily") (VDict []) = Ok daily_data /\
    forall i e,
      nth_error [Sample.first_day; Sample.second_day] i = Some e ->
      daily_row (Py.or daily_data (VDict [])) (Z.of_nat i) e.
Proof.
  apply (X10_daily_entries_aligned
           (Sample.world_of Sample.two_days Sample.no_feed) (lit "Jaipur") 5
           false (Sample.jaipur_trace false)
           (Sample.jaipur_summary [Sample.first_day; Sample.second_day] None)).
  reflexivity.
Defined.

(** ** The hourly loop *)

Lemma hourly_entry_at_row hourly_data time_str idx e :
  hourly_entry_at hourly_data time_str idx = Ok e ->
  Hourly.time e = time_str /\ hourly_row hourly_data idx e.
Proof.
  unfold hourly_entry_at, hourly_row. intros H.
  step H as a Ea. step H as b Eb. step H as c Ec. step H as d Ed.
  injection H as <-. cbn. auto.
Qed.

Lemma next_24_hours_from_rows w hourly_data now times :
  forall idx es e,
    next_24_hours_from w hourly_data now idx times = Ok es ->
    In e es ->
    exists k,
      nth_error times k = Some (Hourly.time e) /\
      hourly_row hourly_data (idx + Z.of_nat k) e.
Proof.
  induction times as [|time_str rest IH]; intros idx es e;
    cbn [next_24_hours_from].
  - intros [= <-] [].
  - intros H Hin. step H as ts Ets.
    assert (forall es',
              next_24_hours_from w hourly_data now (idx + 1) rest = Ok es' ->
              In e es' ->
              exists k,
                nth_error (time_str :: rest) k = Some (Hourly.time e) /\
                hourly_row hourly_data (idx + Z.of_nat k) e) as Hrest.
    { intros es' Hes' Hin'. destruct (IH _ _ _ Hes' Hin') as (k & Hk & Hrow).
      exists (S k). split; [exact Hk|].
      replace (idx + Z.of_nat (S k)) with (idx + 1 + Z.of_nat k) by lia.
      exact Hrow. }
    destruct (ts <? now); [eapply Hrest; eassumption|].
    step H as horizon Eh.
    destruct (ts >? horizon); [injection H as <-; destruct Hin|].
    step H as e0 Ee. step H as es0 Ees. injection H as <-.
    destruct Hin as [<- | Hin]; [|eapply Hrest; eassumption].
    apply hourly_entry_at_row in Ee as [Ht Hrow].
    exists 0%nat. rewrite Z.add_0_r. cbn [nth_error]. rewrite Ht. auto.
Qed.

Lemma summarize_hourly w lat lon name days include_hourly payload summary es :
  summarize w lat lon name days include_hourly payload = Ok summary ->
  hourly_outlook summary = Some es ->
  exists hourly_data upstream,
    Py.getkey payload (lit "hourly") = Ok hourly_data /\
    hourly_times payload = Ok upstream /\
    next_24_hours_from w hourly_data (utcnow w) 0 upstream = Ok es.
Proof.
  unfold summarize. intros H Hes. do 9 step H. step H as has_hourly Ehas.
  destruct has_hourly.
  - step H as hourly_data Ehd. step H as base_times Ebase.
    step H as upstream Eiter. step H as es' Eloop.
    injection H as <-. cbn in Hes. injection Hes as <-.
    exists hourly_data, upstream. split; [exact Ehd|]. split; [|exact Eloop].
    unfold hourly_times. rewrite Ehd. cbn [rbind]. rewrite Ebase. exact Eiter.
  - injection H as <-. discriminate.
Qed.

(** X11.  Every entry of a returned [hourly_outlook] stems from one
    position of the upstream hourly time column: its "time" is the string at
    that position, and its temperature, precipitation probability, relative
    humidity and weather code are the values at the same position of their
    columns, however many earlier hours were skipped. *)
Theorem X11_hourly_entries_aligned w loc days t summary es e :
  fetch_weather_summary w loc days true = (t, Ok summary) ->
  hourly_outlook summary = Some es ->
  In e es ->
  exists payload hourly_data upstream k,
    forecast_is w loc true payload /\
    Py.getkey payload (lit "hourly") = Ok hourly_data /\
    hourly_times payload = Ok upstream /\
    nth_error upstream k = Some (Hourly.time e) /\
    hourly_row hourly_data (Z.of_nat k) e.
Proof.
  intros H Hes Hin.
  apply fetch_weather_summary_ok in H
    as (_ & t1 & lat & lon & name & response & payload
        & Hres & Hget & Hst & Hjs & Hsum & _).
  destruct (summarize_hourly _ _ _ _ _ _ _ _ _ Hsum Hes)
    as (hourly_data & upstream & Hhd & Hup & Hloop).
  destruct (next_24_hours_from_rows _ _ _ _ _ _ _ Hloop Hin) as (k & Hk & Hrow).
  exists payload, hourly_data, upstream, k.
  split; [exists t1, lat, lon, name, response; auto|]. auto.
Qed.

Lemma X11_hourly_entries_aligned_witness :
  exists payload hourly_data upstream k,
    forecast_is (Sample.world_of Sample.two_days Sample.no_feed) (lit "Jaipur")
      true payload /\
    Py.getkey payload (lit "hourly") = Ok hourly_data /\
    hourly_times payload = Ok upstream /\
    nth_error upstream k = Some (Hourly.time Sample.one_pm) /\
    hourly_row hourly_data (Z.of_nat k) Sample.one_pm.
Proof.
  apply (X11_hourly_entries_aligned
           (Sample.world_of Sample.two_days Sample.no_feed) (lit "Jaipur") 5
           (Sample.jaipur_trace true)
           (Sample.jaipur_summary [Sample.first_day; Sample.second_day]
              (Some [Sample.one_pm]))
           [Sample.one_pm] Sample.one_pm).
  - reflexivity.
  - reflexivity.
  - left. reflexivity.
Defined.

(** X12.  The scan of the upstream hours ends at the first hour later
    than [now + 24h]: what follows it is not read, not even parsed, so the
    loop gives the same result, or the same error, as on the hours before
    it. *)
Theorem X12_scan_ends_at_first_late_hour w hourly_data now late ts post :
  parse_timestamp w late = Ok ts ->
  now + Dt.hours 24 < ts ->
  now + Dt.hours 24 <= Dt.max_us ->
  0 <= now ->
  forall pre idx,
    next_24_hours_from w hourly_data now idx (pre ++ late :: post)
    = next_24_hours_from w hourly_data now idx pre.
Proof.
  intros Hparse Hlate Hmax Hnow.
  assert (Dt.add now (Dt.hours 24) = Ok (now + Dt.hours 24)) as Hadd.
  { unfold Dt.add, Dt.in_range, Dt.min_us.
    replace ((0 <=? now + Dt.hours 24) && (now + Dt.hours 24 <=? Dt.max_us))
      with true; [reflexivity|].
    symmetry. apply andb_true_intro.
    split; apply Z.leb_le; [unfold Dt.hours; lia | exact Hmax]. }
  induction pre as [|time_str pre IH]; intros idx;
    cbn [app next_24_hours_from].
  - rewrite Hparse. cbn [rbind].
    replace (ts <? now) with false
      by (symmetry; apply Z.ltb_ge; unfold Dt.hours in *; lia).
    rewrite Hadd. cbn [rbind].
    replace (ts >? now + Dt.hours 24) with true
      by (symmetry; apply Z.gtb_lt; lia).
    reflexivity.
  - destruct (parse_timestamp w time_str) as [t0|e]; [|reflexivity].
    cbn [rbind]. destruct (t0 <? now); [apply IH|].
    rewrite Hadd. cbn [rbind].
    destruct (t0 >? now + Dt.hours 24); [reflexivity|].
    destruct (hourly_entry_at hourly_data time_str idx); [|reflexivity].
    cbn [rbind]. rewrite IH. reflexivity.
Qed.

Lemma X12_scan_ends_at_first_late_hour_witness :
  next_24_hours_from (Sample.world_of Sample.two_days Sample.no_feed)
    (VDict []) Sample.noon 0
    ([Sample.s "2025-01-01T11:00"]
     ++ Sample.s "2025-01-02T13:00" :: [VNone; Sample.s "not a date"])
  = next_24_hours_from (Sample.world_of Sample.two_days Sample.no_feed)
      (VDict []) Sample.noon 0 [Sample.s "2025-01-01T11:00"].
Proof.
  apply (X12_scan_ends_at_first_late_hour
           (Sample.world_of Sample.two_days Sample.no_feed) (VDict [])
           Sample.noon (Sample.s "2025-01-02T13:00") (Sample.at_hour 37)
           [VNone; Sample.s "not a date"]).
  - reflexivity.
  - vm_compute. reflexivity.
  - vm_compute. discriminate.
  - vm_compute. discriminate.
Defined.

(** X13.  When every upstream hour parses and lies before [now], the loop
    returns the empty list, whatever the other hourly columns hold: they
    are not read. *)
Theorem X13_past_hours_give_empty_outlook w hourly_data now times :
  Forall (past w now) times ->
  forall idx, next_24_hours_from w hourly_data now idx times = Ok [].
Proof.
  induction 1 as [|time_str rest (ts & Hparse & Hlt) _ IH]; intros idx;
    cbn [next_24_hours_from]; [reflexivity|].
  rewrite Hparse. cbn [rbind].
  replace (ts <? now) with true by (symmetry; apply Z.ltb_lt; exact Hlt).
  apply IH.
Qed.

Lemma X13_past_hours_give_empty_outlook_witness :
  next_24_hours_from (Sample.world_of Sample.two_days Sample.no_feed) VNone
    Sample.noon 0 [Sample.s "2025-01-01T11:00"; Sample.s "2025-01-01T11:00"]
  = Ok [].
Proof.
  apply (X13_past_hours_give_empty_outlook
           (Sample.world_of Sample.two_days Sample.no_feed) VNone Sample.noon).
  repeat constructor; exists (Sample.at_hour 11);
    (split; [reflexivity | vm_compute; reflexivity]).
Defined.

Lemma filter_none_in_window w now times ts0 :
  now + Dt.hours 24 < ts0 ->
  Forall (fun b => forall tb, parse_timestamp w b = Ok tb -> ts0 <= tb) times ->
  filter (in_window_b w now) times = [].
Proof.
  intros Hlate. induction 1 as [|b rest Hb _ IH]; cbn [filter]; [reflexivity|].
  unfold in_window_b at 1. destruct (parse_timestamp w b) as [tb|e]; [|exact IH].
  specialize (Hb tb eq_refl).
  replace (tb <=? now + Dt.hours 24) with false
    by (symmetry; apply Z.leb_gt; lia).
  rewrite andb_false_r. exact IH.
Qed.

Lemma next_24_hours_from_sorted w hourly_data now times :
  StronglySorted (not_later w) times ->
  forall idx es,
    next_24_hours_from w hourly_data now idx times = Ok es ->
    map Hourly.time es = filter (in_window_b w now) times.
Proof.
  induction 1 as [|time_str rest Hsorted IH Hall]; intros idx es;
    cbn [next_24_hours_from filter].
  - intros [= <-]. reflexivity.
  - intros H. step H as ts Ets. unfold in_window_b at 1. rewrite Ets.
    destruct (Z.ltb_spec ts now) as [Hlt | Hge].
    + replace (now <=? ts) with false by (symmetry; apply Z.leb_gt; lia).
      cbn [andb]. eapply IH. exact H.
    + replace (now <=? ts) with true by (symmetry; apply Z.leb_le; lia).
      cbn [andb]. step H as horizon Eh. apply dt_add_ok in Eh. subst horizon.
      destruct (ts >? now + Dt.hours 24) eqn:Egt.
      * injection H as <-. apply Z.gtb_lt in Egt.
        replace (ts <=? now + Dt.hours 24) with false
          by (symmetry; apply Z.leb_gt; lia).
        symmetry. apply (filter_none_in_window w now rest ts Egt).
        eapply Forall_impl; [|exact Hall].
        intros b Hb tb Htb. exact (Hb ts tb Ets Htb).
      * rewrite Z.gtb_ltb in Egt. apply Z.ltb_ge in Egt.
        replace (ts <=? now + Dt.hours 24) with true
          by (symmetry; apply Z.leb_le; lia).
        step H as e0 Ee. step H as es0 Ees. injection H as <-.
        apply hourly_entry_at_row in Ee as [Ht _].
        cbn [map]. rewrite Ht. f_equal. eapply IH. exact Ees.
Qed.

(** X14.  When the upstream hours are in ascending order of time, the
    "time" strings of a returned [hourly_outlook] are exactly the upstream
    ones whose timestamp lies in the closed window of 24 hours from the
    call, in the upstream order: ending the scan at the first late hour
    loses nothing. *)
Theorem X14_sorted_hours_give_the_window w loc days t summary es payload upstream :
  fetch_weather_summary w loc days true = (t, Ok summary) ->
  hourly_outlook summary = Some es ->
  forecast_is w loc true payload ->
  hourly_times payload = Ok upstream ->
  StronglySorted (not_later w) upstream ->
  map Hourly.time es = filter (in_window_b w (utcnow w)) upstream.
Proof.
  intros H Hes (t0 & lat0 & lon0 & name0 & response0 & Hres0 & Hget0 & _ & Hjs0)
         Hup Hsorted.
  apply fetch_weather_summary_ok in H
    as (_ & t1 & lat & lon & name & response & payload'
        & Hres & Hget & Hst & Hjs & Hsum & _).
  rewrite Hres0 in Hres. injection Hres as <- <- <- <-.
  rewrite Hget0 in Hget. injection Hget as <-.
  rewrite Hjs0 in Hjs. injection Hjs as <-.
  destruct (summarize_hourly _ _ _ _ _ _ _ _ _ Hsum Hes)
    as (hourly_data & upstream' & _ & Hup' & Hloop).
  rewrite Hup in Hup'. injection Hup' as <-.
  eapply next_24_hours_from_sorted; eassumption.
Qed.

Lemma X14_sorted_hours_give_the_window_witness :
  map Hourly.time [Sample.one_pm]
  = filter (in_window_b (Sample.world_of Sample.two_days Sample.no_feed)
              Sample.noon)
      [ Sample.s "2025-01-01T11:00"; Sample.s "2025-01-01T18:30+05:30";
        Sample.s "2025-01-02T13:00" ].
Proof.
  apply (X14_sorted_hours_give_the_window
           (Sample.world_of Sample.two_days Sample.no_feed) (lit "Jaipur") 5
           (Sample.jaipur_trace true)
           (Sample.jaipur_summary [Sample.first_day; Sample.second_day]
              (Some [Sample.one_pm]))
           [Sample.one_pm] Sample.two_days).
  - reflexivity.
  - reflexivity.
  - exists [Requested (GeocodeRequest (lit "Jaipur"))],
      Sample.jaipur_lat, Sample.jaipur_lon, (lit "Jaipur, Rajasthan, India"),
      (Sample.ok_json Sample.two_days).
    repeat split; reflexivity.
  - reflexivity.
  - repeat constructor; intros ta tb Ha Hb; vm_compute in Ha, Hb;
      injection Ha as <-; injection Hb as <-; lia.
Defined.

(** ** [fetch_safety_brief] *)

Lemma after_last_no_sep sep text : ~ In sep (Str.after_last sep text).
Proof.
  induction text as [|c rest IH]; cbn [Str.after_last]; [intros []|].
  destruct (existsb (N.eqb sep) rest) eqn:E; [exact IH|].
  assert (~ In sep rest) as Hrest.
  { intros Hin. assert (existsb (N.eqb sep) rest = true) as Ht.
    { apply existsb_exists. exists sep. split; [exact Hin | apply N.eqb_refl]. }
    congruence. }
  destruct (N.eqb_spec c sep) as [-> | Hne]; [exact Hrest|].
  intros [Heq | Hin]; [congruence | exact (Hrest Hin)].
Qed.

Lemma after_last_suffix sep text :
  exists before, text = before ++ Str.after_last sep text.
Proof.
  induction text as [|c rest [before IH]]; cbn [Str.after_last].
  - exists []. reflexivity.
  - destruct (existsb (N.eqb sep) rest).
    + exists (c :: before). cbn [app]. f_equal. exact IH.
    + destruct (c =? sep)%N; [exists [c] | exists []]; reflexivity.
Qed.

Lemma after_last_split sep text :
  In sep text ->
  exists before, text = before ++ sep :: Str.after_last sep text.
Proof.
  induction text as [|c rest IH]; cbn [Str.after_last]; [intros []|].
  intros Hin. destruct (existsb (N.eqb sep) rest) eqn:E.
  - apply existsb_exists in E as (x & Hx & Heq). apply N.eqb_eq in Heq.
    subst x. destruct (IH Hx) as [before Hb].
    exists (c :: before). cbn [app]. f_equal. exact Hb.
  - destruct Hin as [-> | Hin].
    + rewrite N.eqb_refl. exists []. reflexivity.
    + exfalso. assert (existsb (N.eqb sep) rest = true) as Ht.
      { apply existsb_exists. exists sep. split; [exact Hin | apply N.eqb_refl]. }
      congruence.
Qed.

Lemma replace_one_char (a b : Str.char) text :
  Str.replace text [a] [b] = map (fun c => if (c =? a)%N then b else c) text.
Proof.
  unfold Str.replace. induction text as [|c rest IH]; [reflexivity|].
  cbn [Str.replace_from Str.startswith List.length Nat.pred map app].
  replace (Str.startswith rest []) with true by (destruct rest; reflexivity).
  rewrite N.eqb_sym, andb_true_r.
  destruct (c =? a)%N; cbn [app]; f_equal; exact IH.
Qed.

Lemma safety_trace_head w location m language :
  blank location = false ->
  exists rest,
    fst (fetch_safety_brief w location m language)
    = Requested (news_request location language) :: rest.
Proof.
  intros Hb. unfold fetch_safety_brief. rewrite Hb.
  fold (news_request location language). unfold requests_get. cbn [bind].
  destruct (http_get w (news_request location language)) as [response|e];
    [|exists []; reflexivity].
  match goal with
  | |- context [ let (t', r) := ?k in _ ] => destruct k as [t' r]
  end.
  exists t'. reflexivity.
Qed.

(** X15.  [fetch_safety_brief] rejects a location exactly when it is
    empty after trimming whitespace: it then raises "location is required"
    without any request, and for every other location the news query is the
    first thing it does. *)
Theorem X15_safety_blank_location w location m language :
  (Str.strip location = [] <->
   fetch_safety_brief w location m language = ([], Raise location_is_required))
  /\
  (Str.strip location = [] \/
   exists rest,
     fst (fetch_safety_brief w location m language)
     = Requested (news_request location language) :: rest).
Proof.
  rewrite <- blank_strip. destruct (blank location) eqn:Hb.
  - split; [|left; reflexivity]. unfold fetch_safety_brief. rewrite Hb.
    split; reflexivity.
  - destruct (safety_trace_head w location m language Hb) as [rest Hrest].
    split; [|right; exists rest; exact Hrest].
    split; [discriminate|]. intros H. rewrite H in Hrest. discriminate.
Qed.

(** X16.  The news query carries the location followed by the fixed
    clause as [q] and the language as [hl].  Its [gl] is the part of the
    language after its last hyphen: it contains no hyphen, and the language
    is some text, a hyphen and then [gl] when the language has a hyphen,
    and [gl] itself when it has none.  Its [ceid] is the language with every
    hyphen turned into a colon. *)
Theorem X16_news_request_parameters location language :
  exists gl,
    news_request location language
    = NewsRequest
        (location
         ++ lit " travel warning OR safety advisory OR disruption OR protest")
        language gl (map colon_for_hyphen language) /\
    ~ In Textwrap.hyphen gl /\
    (exists before, language = before ++ gl) /\
    (In Textwrap.hyphen language ->
     exists before, language = before ++ Textwrap.hyphen :: gl) /\
    (~ In Textwrap.hyphen language -> gl = language).
Proof.
  exists (Str.after_last Textwrap.hyphen language).
  split; [|split; [|split; [|split]]].
  - unfold news_request, query_of. f_equal.
    apply (replace_one_char Textwrap.hyphen 58%N language).
  - apply after_last_no_sep.
  - apply after_last_suffix.
  - apply after_last_split.
  - intros Hno. induction language as [|c rest IH]; [reflexivity|].
    cbn [Str.after_last].
    assert (existsb (N.eqb Textwrap.hyphen) rest = false) as ->.
    { destruct (existsb (N.eqb Textwrap.hyphen) rest) eqn:E; [|reflexivity].
      apply existsb_exists in E as (x & Hx & Heq). apply N.eqb_eq in Heq.
      subst x. exfalso. apply Hno. right. exact Hx. }
    destruct (N.eqb_spec c Textwrap.hyphen) as [-> | _]; [|reflexivity].
    exfalso. apply Hno. left. reflexivity.
Qed.

(** X17.  When the news endpoint answers with a status from 400 to 599,
    [fetch_safety_brief] raises the HTTP error of that status; the body is
    not parsed and nothing is logged. *)
Theorem X17_feed_http_error w location m language response :
  blank location = false ->
  http_get w (news_request location language) = Ok response ->
  400 <= status_code response < 600 ->
  fetch_safety_brief w location m language
  = ([Requested (news_request location language)],
     Raise (HTTPError (status_code response))).
Proof.
  intros Hb Hget Hcode. unfold fetch_safety_brief. rewrite Hb.
  fold (news_request location language). unfold requests_get. cbn [bind].
  rewrite Hget. cbn [bind lift]. unfold raise_for_status.
  replace ((400 <=? status_code response) && (status_code response <? 600))
    with true; [reflexivity|].
  symmetry. apply andb_true_intro. split; [apply Z.leb_le | apply Z.ltb_lt]; lia.
Qed.

Lemma X17_feed_http_error_witness :
  fetch_safety_brief
    (answering 429 (Sample.world_of Sample.two_days Sample.no_feed))
    (lit "Jaipur") 4 (lit "en-US")
  = ([Requested (news_request (lit "Jaipur") (lit "en-US"))],
     Raise (HTTPError 429)).
Proof.
  apply (X17_feed_http_error
           (answering 429 (Sample.world_of Sample.two_days Sample.no_feed))
           (lit "Jaipur") 4 (lit "en-US")
           {| status_code := 429; json := Raise JSONDecodeError; text := [] |}).
  - reflexivity.
  - reflexivity.
  - simpl. lia.
Defined.

(** X18.  Whatever the world answers, [fetch_safety_brief] issues at most
    one request and logs at most one warning; a warning is logged only when
    the XML parser raised on the body, and then the call ends with that same
    exception.  In particular the error that no headline was found is not
    logged, and building the snippets never raises. *)
Theorem X18_safety_trace w location m language :
  fst (fetch_safety_brief w location m language) = [] \/
  fst (fetch_safety_brief w location m language)
  = [Requested (news_request location language)] \/
  exists response exc,
    http_get w (news_request location language) = Ok response /\
    xml_fromstring w (text response) = Raise exc /\
    fetch_safety_brief w location m language
    = ([Requested (news_request location language);
        LoggedWarning failed_to_parse location exc],
       Raise exc).
Proof.
  destruct (blank location) eqn:Hb.
  { left. unfold fetch_safety_brief. rewrite Hb. reflexivity. }
  destruct (http_get w (news_request location language)) as [response|e] eqn:Hget.
  2:{ right. left. unfold fetch_safety_brief. rewrite Hb.
      fold (news_request location language). unfold requests_get. cbn [bind].
      rewrite Hget. reflexivity. }
  destruct (raise_for_status response) as [[]|e] eqn:Hst.
  2:{ right. left. unfold fetch_safety_brief. rewrite Hb.
      fold (news_request location language). unfold requests_get. cbn [bind].
      rewrite Hget. cbn [bind lift]. rewrite Hst. reflexivity. }
  destruct (xml_fromstring w (text response)) as [tree|exc] eqn:Hxml.
  - right. left.
    destruct (fetch_safety_brief_eq w location m language response tree
                Hb Hget Hst Hxml) as (hs & _ & ->).
    reflexivity.
  - right. right. exists response, exc. split; [reflexivity|].
    split; [exact Hxml|].
    unfold fetch_safety_brief. rewrite Hb.
    fold (news_request location language).
    unfold requests_get, parse_headlines. cbn [bind]. rewrite Hget.
    cbn [bind lift]. rewrite Hst. cbn [bind lift]. rewrite Hxml. reflexivity.
Qed.

(** X19.  A returned brief echoes the location exactly as it was passed,
    untrimmed, names the fixed source, and comes from a call that issued
    one request and logged nothing. *)
Theorem X19_brief_echoes_location w loc m language t brief :
  fetch_safety_brief w loc m language = (t, Ok brief) ->
  Safety.location brief = loc /\
  Safety.source brief = google_news /\
  t = [Requested (news_request loc language)].
Proof.
  intros H. pose proof H as H0. unfold fetch_safety_brief in H.
  destruct (blank loc) eqn:Hb; [discriminate|].
  fold (news_request loc language) in H.
  apply bind_ok in H as (t1 & response & t2 & Hget & H & ->).
  unfold requests_get in Hget. injection Hget as <- Hget.
  apply bind_ok in H as (t3 & [] & t4 & Hst & H & ->).
  apply lift_ok in Hst as [Hst ->].
  destruct (xml_fromstring w (text response)) as [tree|exc] eqn:Hxml.
  - destruct (fetch_safety_brief_eq w loc m language response tree
                Hb Hget Hst Hxml) as (hs & _ & Heq).
    rewrite Heq in H0. destruct hs; [discriminate|].
    injection H0 as <- <-. cbn. auto.
  - exfalso. unfold parse_headlines in H. rewrite Hxml in H.
    cbn [rbind lift try_except bind log_warning raise] in H. discriminate.
Qed.

Lemma X19_brief_echoes_location_witness :
  Safety.location
    (Sample.jaipur_brief [Sample.headline "Strike" "http://news.example/b"])
  = lit "Jaipur" /\
  Safety.source
    (Sample.jaipur_brief [Sample.headline "Strike" "http://news.example/b"])
  = google_news /\
  [Requested (news_request (lit "Jaipur") (lit "en-US"))]
  = [Requested (news_request (lit "Jaipur") (lit "en-US"))].
Proof.
  apply (X19_brief_echoes_location
           (Sample.world_of Sample.two_days
              (Ok (Sample.rss [Sample.untitled; Sample.strike; Sample.flood])))
           (lit "Jaipur") 2 (lit "en-US")).
  reflexivity.
Defined.
